(** * TinyNTPClient: a shallow embedding of [src/TinyNTPClient.h]

    The class [TinyNTPClient<UDPAPI>] is embedded as pure functions that
    pass the object's fields and the environment (the Arduino millisecond
    counter [::millis()], the UDP object and the serial log) explicitly.

    Fixed-width C++ integers are [Z] with the wrap-around written out:
    [u32] and [u64] reduce modulo 2^32 and 2^64.  Two properties of the
    host are not fixed by the source and are parameters of the model: the
    byte order ([isLittleEndian()]) and the width of [long].

    The wait loop of [ntpExchange] need not terminate and takes fuel; the
    read loop is defined by well-founded recursion on the bytes still
    missing.  The template parameter [UDPAPI] is a type class; a scripted
    instance serves to run the client.

    Contents: the model; byte order; the time base ([getTimeMs]); one
    exchange and [update]; the reply; the request and the offset; the
    deadline of the wait loop; concrete runs. *)

From Stdlib Require Import ZArith String List Bool Lia.
From Equations Require Import Equations.
Import ListNotations.
Open Scope Z_scope.

(** ** Fixed-width integers *)

Definition u32 (x : Z) : Z := x mod 2 ^ 32.
Definition u64 (x : Z) : Z := x mod 2 ^ 64.

Definition is_u32 (x : Z) : Prop := 0 <= x < 2 ^ 32.
Definition is_byte (x : Z) : Prop := 0 <= x < 256.

(** Width of the C++ type [long]: 32 bits on the Arduino targets (AVR,
    ESP32, Cortex-M), 64 bits on an LP64 desktop build such as the one of
    [examples/ntp-desktop]. *)
Inductive LongWidth : Set := Long32 | Long64.

Definition long_bits (lw : LongWidth) : Z :=
  match lw with Long32 => 32 | Long64 => 64 end.

(** The host: what [isLittleEndian()] returns and how wide [long] is. *)
Record Platform : Set := mkPlatform {
  little_endian : bool;
  long_width : LongWidth
}.

(** Conversion of an integer to [long]: the value is reduced to the two's
    complement range of the type.  It is the identity on values the type
    represents; signed overflow wraps. *)
Definition to_long (lw : LongWidth) (x : Z) : Z :=
  (x + 2 ^ (long_bits lw - 1)) mod 2 ^ long_bits lw - 2 ^ (long_bits lw - 1).

(** Seconds between the NTP epoch (1900) and the Unix epoch (1970): the
    literal [2208988800UL]. *)
Definition NTP_EPOCH_DELTA : Z := 2208988800.

(** ** Byte order *)

(** [swap32], lines 183-186. *)
Definition swap32 (value : Z) : Z :=
  Z.lor (Z.lor (Z.lor (Z.shiftl (Z.land value 0x000000FF) 24)
                      (Z.shiftl (Z.land value 0x0000FF00) 8))
               (Z.shiftr (Z.land value 0x00FF0000) 8))
        (Z.shiftr (Z.land value 0xFF000000) 24).

Section Host.

Variable host : Platform.

(** [isLittleEndian()], lines 177-181: the first byte of the object
    representation of [1u] is non-zero exactly on a little-endian host. *)
Definition isLittleEndian : bool := little_endian host.

(** [l_htonl] and [l_ntohl], lines 194-206. *)
Definition l_htonl (hostlong : Z) : Z :=
  if isLittleEndian then swap32 hostlong else hostlong.

Definition l_ntohl (netlong : Z) : Z :=
  if isLittleEndian then swap32 netlong else netlong.

(** Object representation of a [uint32_t] in host memory, and the value
    of four bytes of host memory read as a [uint32_t]. *)
Definition store32 (v : Z) : list Z :=
  let b0 := v mod 256 in
  let b1 := (v / 2 ^ 8) mod 256 in
  let b2 := (v / 2 ^ 16) mod 256 in
  let b3 := (v / 2 ^ 24) mod 256 in
  if isLittleEndian then [b0; b1; b2; b3] else [b3; b2; b1; b0].

Definition load32 (bs : list Z) : Z :=
  match bs with
  | [a; b; c; d] =>
      if isLittleEndian
      then a + b * 2 ^ 8 + c * 2 ^ 16 + d * 2 ^ 24
      else d + c * 2 ^ 8 + b * 2 ^ 16 + a * 2 ^ 24
  | _ => 0
  end.

End Host.

(** ** The NTP packet, lines 136-159 *)

Record NTPPacket : Set := mkNTPPacket {
  li_vn_mode : Z;
  stratum : Z;
  poll : Z;
  precision : Z;
  rootDelay : Z;
  rootDispersion : Z;
  refId : Z;
  refTm_s : Z;
  refTm_f : Z;
  origTm_s : Z;
  origTm_f : Z;
  rxTm_s : Z;
  rxTm_f : Z;
  txTm_s : Z;
  txTm_f : Z
}.

(** [sizeof(NTPPacket)]: the struct is packed, 4 + 11 * 4 bytes. *)
Definition sizeof_NTPPacket : Z := 48.

Section PacketMemory.

Variable host : Platform.

(** [reinterpret_cast<uint8_t*>(&packet)]: the 48 bytes of the packed
    struct, members in declaration order, each in host byte order. *)
Definition packet_bytes (p : NTPPacket) : list Z :=
  [li_vn_mode p mod 256; stratum p mod 256; poll p mod 256;
   precision p mod 256]
  ++ store32 host (rootDelay p) ++ store32 host (rootDispersion p)
  ++ store32 host (refId p)
  ++ store32 host (refTm_s p) ++ store32 host (refTm_f p)
  ++ store32 host (origTm_s p) ++ store32 host (origTm_f p)
  ++ store32 host (rxTm_s p) ++ store32 host (rxTm_f p)
  ++ store32 host (txTm_s p) ++ store32 host (txTm_f p).

(** The four bytes of a buffer that start at offset [off]. *)
Definition word_at (buffer : list Z) (off : nat) : list Z :=
  firstn 4 (skipn off buffer).

(** The members of the struct that overlays a 48-byte buffer. *)
Definition packet_of_bytes (buffer : list Z) : NTPPacket :=
  {| li_vn_mode := nth 0 buffer 0;
     stratum := nth 1 buffer 0;
     poll := nth 2 buffer 0;
     precision := nth 3 buffer 0;
     rootDelay := load32 host (word_at buffer 4);
     rootDispersion := load32 host (word_at buffer 8);
     refId := load32 host (word_at buffer 12);
     refTm_s := load32 host (word_at buffer 16);
     refTm_f := load32 host (word_at buffer 20);
     origTm_s := load32 host (word_at buffer 24);
     origTm_f := load32 host (word_at buffer 28);
     rxTm_s := load32 host (word_at buffer 32);
     rxTm_f := load32 host (word_at buffer 36);
     txTm_s := load32 host (word_at buffer 40);
     txTm_f := load32 host (word_at buffer 44) |}.

(** The request of [ntpExchange], lines 217-223. *)
Definition request_packet (txTm_s0 : Z) : NTPPacket :=
  {| li_vn_mode := 0xDB;
     stratum := 0; poll := 0; precision := 0;
     rootDelay := 0; rootDispersion := 0; refId := 0;
     refTm_s := 0; refTm_f := 0;
     origTm_s := 0; origTm_f := 0;
     rxTm_s := 0; rxTm_f := 0;
     txTm_s := l_htonl host txTm_s0;
     txTm_f := 0 |}.

End PacketMemory.

(** The three fields packed in the first byte:
    LI (bits 7-6), VN (bits 5-3), Mode (bits 2-0). *)
Definition leap_indicator (flags : Z) : Z := Z.land (Z.shiftr flags 6) 3.
Definition version_number (flags : Z) : Z := Z.land (Z.shiftr flags 3) 7.
Definition mode (flags : Z) : Z := Z.land flags 7.

(** A 32-bit value as four bytes in network (big-endian) order. *)
Definition be32 (v : Z) : list Z :=
  [(v / 2 ^ 24) mod 256; (v / 2 ^ 16) mod 256; (v / 2 ^ 8) mod 256; v mod 256].

(** Four bytes in network order, as a number. *)
Definition be_value (bs : list Z) : Z :=
  match bs with
  | [a; b; c; d] => a * 2 ^ 24 + b * 2 ^ 16 + c * 2 ^ 8 + d
  | _ => 0
  end.

(** ** The environment *)

(** The template parameter [UDPAPI] (for instance [WiFiUDP]): the
    methods the client calls on its member [_udp].  Each method is a
    function of the state of the UDP object; the results of [begin],
    [beginPacket], [write] and [endPacket] are ignored by the client and
    are left out.  [udp_read len] returns the [int] result of
    [read(buf, len)] and the bytes it stored at [buf]. *)
Class UDPAPI (U : Type) : Type := {
  udp_begin : Z -> U -> U;
  udp_beginPacket : string -> Z -> U -> U;
  udp_write : list Z -> U -> U;
  udp_endPacket : U -> U;
  udp_parsePacket : U -> Z * U;
  udp_available : U -> Z * U;
  udp_read : Z -> U -> Z * list Z * U;
  udp_stop : U -> U
}.

(** What [log] prints on [Serial], lines 235, 248 and 267. *)
Inductive LogEvent : Set :=
| LogTimedOut
| LogTooShort (packetSize : Z)
| LogIncomplete (totalRead : Z).

(** Everything outside the client's own fields: the free-running
    millisecond counter (the [k]-th call of [::millis()] returns
    [clock k], read as a [uint32_t]), the UDP object, and the serial
    output. *)
Record World (U : Type) : Type := mkWorld {
  clock : nat -> Z;
  clock_reads : nat;
  udp : U;
  serial : list LogEvent
}.
Arguments mkWorld {U}.
Arguments clock {U}.
Arguments clock_reads {U}.
Arguments udp {U}.
Arguments serial {U}.

(** The data members of the class, lines 163-174 ([_udp] is kept in the
    [World]). *)
Record TinyNTPClient : Set := mkClient {
  _server : string;
  _port : Z;
  _timeOffsetSeconds : Z;
  _lastNtpTime : Z;
  _lastUpdateMillis : Z;
  _timeoutMs : Z
}.

(** The constructor, lines 29-31, and its default arguments. *)
Definition new_client (server : string) (port : Z) (timeoutMs : Z)
  : TinyNTPClient :=
  mkClient server port 0 0 0 timeoutMs.

Definition default_client : TinyNTPClient :=
  new_client "pool.ntp.org"%string 123 6000.

Definition set_timeOffsetSeconds (c : TinyNTPClient) (v : Z) : TinyNTPClient :=
  mkClient (_server c) (_port c) v (_lastNtpTime c) (_lastUpdateMillis c)
           (_timeoutMs c).

(** The two assignments [_lastNtpTime = ...; _lastUpdateMillis = ...]. *)
Definition set_anchor (c : TinyNTPClient) (ntpTime updateMillis : Z)
  : TinyNTPClient :=
  mkClient (_server c) (_port c) (_timeOffsetSeconds c) ntpTime updateMillis
           (_timeoutMs c).

(** [setServer], lines 111-114. *)
Definition setServer (server : string) (port : Z) (c : TinyNTPClient)
  : TinyNTPClient :=
  mkClient server port (_timeOffsetSeconds c) (_lastNtpTime c)
           (_lastUpdateMillis c) (_timeoutMs c).

(** [operator bool], line 126. *)
Definition operator_bool (c : TinyNTPClient) : bool :=
  negb (_lastUpdateMillis c =? 0).

(** [uint32_t ms_since_update = ::millis() - _lastUpdateMillis], line 70. *)
Definition ms_since_update (now lastUpdateMillis : Z) : Z :=
  u32 (now - lastUpdateMillis).

(** A [read] into [buffer + off]: the bytes of [data] replace those of
    the memory that starts at [buffer], from offset [off] on.  The
    elements are [uint8_t].  Nothing keeps the write inside the 48 bytes
    of the response: data that reaches past the end of [buffer] is
    written behind it, and the list grows. *)
Definition store_at (buffer : list Z) (off : Z) (data : list Z) : list Z :=
  let o := Z.to_nat off in
  firstn o buffer ++ map (fun b => b mod 256) data
  ++ skipn (o + length data) buffer.

(** Bytes still missing from a response of which [totalRead] are in. *)
Definition bytes_left (totalRead : Z) : nat :=
  Z.to_nat (sizeof_NTPPacket - totalRead).
Arguments bytes_left : simpl never.

Section Client.

Variable host : Platform.
Context {U : Type} `{UDPAPI U}.

Definition set_udp (w : World U) (u : U) : World U :=
  mkWorld (clock w) (clock_reads w) u (serial w).

Definition log (e : LogEvent) (w : World U) : World U :=
  mkWorld (clock w) (clock_reads w) (udp w) (serial w ++ [e]).

(** The global [::millis()]. *)
Definition millis (w : World U) : Z * World U :=
  (u32 (clock w (clock_reads w)),
   mkWorld (clock w) (S (clock_reads w)) (udp w) (serial w)).

(** [getTimeMs], lines 65-75. *)
Definition getTimeMs (c : TinyNTPClient) (w : World U) : Z * World U :=
  if _lastUpdateMillis c =? 0 then (0, w)
  else
    let (now, w1) := millis w in
    let elapsed := ms_since_update now (_lastUpdateMillis c) in
    (u64 (u64 (u64 (_lastNtpTime c * 1000) + elapsed)
          + u64 (u64 (_timeOffsetSeconds c) * 1000)), w1).

(** [getTimeSec], lines 56-59. *)
Definition getTimeSec (c : TinyNTPClient) (w : World U) : Z * World U :=
  let (ms, w1) := getTimeMs c w in (u32 (ms / 1000), w1).

(** [setTimeOffsetSeconds] and [setTimeOffsetHours], lines 98 and 104. *)
Definition setTimeOffsetSeconds (offset : Z) (c : TinyNTPClient)
  : TinyNTPClient :=
  set_timeOffsetSeconds c offset.

Definition setTimeOffsetHours (hours : Z) (c : TinyNTPClient)
  : TinyNTPClient :=
  set_timeOffsetSeconds c (to_long (long_width host) (hours * 3600)).

(** [end], lines 45-50. *)
Definition end_ (c : TinyNTPClient) (w : World U) : TinyNTPClient * World U :=
  (mkClient (_server c) (_port c) 0 0 0 (_timeoutMs c),
   set_udp w (udp_stop (udp w))).

(** *** [ntpExchange], lines 216-299 *)

(** Lines 217-228: build the request and hand it to the UDP object. *)
Definition ntpExchange_send (tx_s : Z) (c : TinyNTPClient) (w : World U)
  : World U :=
  let packet := request_packet host tx_s in
  let u1 := udp_begin (_port c) (udp w) in
  let u2 := udp_beginPacket (_server c) (_port c) u1 in
  let u3 := udp_write (packet_bytes host packet) u2 in
  set_udp w (udp_endPacket u3).

(** Lines 233-238: [while ((packetSize = _udp.parsePacket()) == 0)].
    The loop has no bound of its own, so the model takes fuel: [None] is
    "still polling after [fuel] rounds", [Some (None, _)] is the
    [return false] of the time-out, [Some (Some packetSize, _)] is the
    exit of the loop. *)
Fixpoint ntpExchange_wait (fuel : nat) (timeout_ms : Z) (w : World U)
  : option (option Z * World U) :=
  match fuel with
  | O => None
  | S fuel' =>
      let (packetSize, u1) := udp_parsePacket (udp w) in
      let w1 := set_udp w u1 in
      if packetSize =? 0 then
        let (now, w2) := millis w1 in
        if now >? timeout_ms then Some (None, log LogTimedOut w2)
        else ntpExchange_wait fuel' timeout_ms w2
      else Some (Some packetSize, w1)
  end.

(** Lines 257-264: [while (totalRead < bytesToRead && _udp.available())].
    Every round that does not leave the loop adds at least one byte, so
    the distance to [sizeof(NTPPacket)] is a measure. *)
Equations? ntpExchange_readLoop (totalRead : Z) (buffer : list Z) (u : U)
  : Z * list Z * U
  by wf (bytes_left totalRead) lt :=
  ntpExchange_readLoop totalRead buffer u
    with Z_lt_dec totalRead sizeof_NTPPacket := {
    | right _ := (totalRead, buffer, u)
    | left Hlt with udp_available u := {
      | (avail, u1) with Z.eq_dec avail 0 := {
        | left _ := (totalRead, buffer, u1)
        | right _ with udp_read (sizeof_NTPPacket - totalRead) u1 := {
          | (bytesRead, data, u2) with Z_gt_dec bytesRead 0 := {
            | left Hgt :=
                ntpExchange_readLoop (totalRead + bytesRead)
                                     (store_at buffer totalRead data) u2
            | right _ := (totalRead, buffer, u2) } } } } }.
Proof. unfold bytes_left, sizeof_NTPPacket in *. lia. Qed.

(** Lines 282-283: the offset, from the four seconds fields.  Each
    difference is taken in [uint32_t] and then cast to [long]; the sum
    and the division by 2 are in [long], and [/] rounds toward zero. *)
Definition ntp_offset (originate receive transmit t3_ntp : Z) : Z :=
  let lw := long_width host in
  Z.quot (to_long lw (to_long lw (u32 (receive - originate))
                      + to_long lw (u32 (transmit - t3_ntp)))) 2.

(** Lines 272-298: compute and store the new time. *)
Definition ntpExchange_update (tx_s t3_millis : Z) (response : NTPPacket)
    (c : TinyNTPClient) (w : World U) : bool * TinyNTPClient * World U :=
  let useOffset := negb (tx_s =? 0) in
  if useOffset then
    let originate := l_ntohl host (origTm_s response) in
    let receive := l_ntohl host (rxTm_s response) in
    let transmit := l_ntohl host (txTm_s response) in
    let (t3_unix, w1) := getTimeSec c w in
    let t3_ntp := u32 (t3_unix + NTP_EPOCH_DELTA) in
    let offset := ntp_offset originate receive transmit t3_ntp in
    (true, set_anchor c (u32 (transmit - NTP_EPOCH_DELTA + offset)) t3_millis,
     w1)
  else
    let transmit := l_ntohl host (txTm_s response) in
    (true, set_anchor c (u32 (transmit - NTP_EPOCH_DELTA)) t3_millis, w).

(** Lines 240-299: everything after the wait loop. *)
Definition ntpExchange_read (tx_s : Z) (c : TinyNTPClient) (packetSize : Z)
    (w : World U) : bool * TinyNTPClient * World U :=
  let (t3_millis, w1) := millis w in
  let buffer := repeat 0 (Z.to_nat sizeof_NTPPacket) in
  if packetSize <? sizeof_NTPPacket then
    let '(_, _, u1) := udp_read packetSize (udp w1) in
    (false, c, log (LogTooShort packetSize) (set_udp w1 u1))
  else
    let '(totalRead, buffer', u1) := ntpExchange_readLoop 0 buffer (udp w1) in
    let w2 := set_udp w1 u1 in
    if totalRead <? sizeof_NTPPacket then
      (false, c, log (LogIncomplete totalRead) w2)
    else
      ntpExchange_update tx_s t3_millis (packet_of_bytes host buffer') c w2.

Definition ntpExchange (fuel : nat) (tx_s : Z) (c : TinyNTPClient)
    (w : World U) : option (bool * TinyNTPClient * World U) :=
  let w1 := ntpExchange_send tx_s c w in
  let (now, w2) := millis w1 in
  let timeout_ms := u32 (now + _timeoutMs c) in
  match ntpExchange_wait fuel timeout_ms w2 with
  | None => None
  | Some (None, w3) => Some (false, c, w3)
  | Some (Some packetSize, w3) => Some (ntpExchange_read tx_s c packetSize w3)
  end.

(** The world in which the wait loop of [ntpExchange] starts, and its
    deadline [timeout_ms], named for the statements below. *)
Definition wait_start (tx_s : Z) (c : TinyNTPClient) (w : World U) : World U :=
  snd (millis (ntpExchange_send tx_s c w)).

Definition deadline (tx_s : Z) (c : TinyNTPClient) (w : World U) : Z :=
  u32 (fst (millis (ntpExchange_send tx_s c w)) + _timeoutMs c).

(** [updateWithoutRTC] and [updateWithRTC], lines 306-322. *)
Definition updateWithoutRTC (fuel : nat) (c : TinyNTPClient) (w : World U)
  : option (bool * TinyNTPClient * World U) :=
  ntpExchange fuel 0 c w.

Definition updateWithRTC (fuel : nat) (c : TinyNTPClient) (w : World U)
  : option (bool * TinyNTPClient * World U) :=
  let (t0_unix, w1) := getTimeSec c w in
  let t0_ntp := u32 (t0_unix + NTP_EPOCH_DELTA) in
  ntpExchange fuel t0_ntp c w1.

(** [update], lines 120-123. *)
Definition update (fuel : nat) (c : TinyNTPClient) (w : World U)
  : option (bool * TinyNTPClient * World U) :=
  if _lastUpdateMillis c =? 0 then
    match updateWithoutRTC fuel c w with
    | None => None
    | Some (false, c1, w1) => Some (false, c1, w1)
    | Some (true, c1, w1) => updateWithRTC fuel c1 w1
    end
  else updateWithRTC fuel c w.

(** [begin], lines 37-40. *)
Definition begin (fuel : nat) (c : TinyNTPClient) (w : World U)
  : option (bool * TinyNTPClient * World U) :=
  let (c1, w1) := end_ c w in update fuel c1 w1.

End Client.

(** ** A scripted transport

    A UDP object for running the client on concrete inputs: it reports
    nothing for [mock_delay] polls, then hands out the datagrams of
    [mock_inbox] one by one, at most [mock_chunk] bytes per [read], and
    records what the client writes. *)
Record MockUDP : Set := mkMock {
  mock_delay : nat;
  mock_inbox : list (list Z);
  mock_current : list Z;
  mock_chunk : Z;
  mock_sent : list (list Z)
}.

Definition mock_parsePacket (u : MockUDP) : Z * MockUDP :=
  match mock_delay u with
  | S d =>
      (0, mkMock d (mock_inbox u) (mock_current u) (mock_chunk u)
                 (mock_sent u))
  | O =>
      match mock_inbox u with
      | [] => (0, u)
      | dgram :: rest =>
          (Z.of_nat (length dgram),
           mkMock O rest dgram (mock_chunk u) (mock_sent u))
      end
  end.

Definition mock_read (len : Z) (u : MockUDP) : Z * list Z * MockUDP :=
  match mock_current u with
  | [] => (-1, [], u)
  | _ =>
      let n := Z.to_nat (Z.min len (mock_chunk u)) in
      let data := firstn n (mock_current u) in
      (Z.of_nat (length data), data,
       mkMock (mock_delay u) (mock_inbox u) (skipn n (mock_current u))
              (mock_chunk u) (mock_sent u))
  end.

#[export] Instance MockUDP_API : UDPAPI MockUDP := {|
  udp_begin := fun _ u => u;
  udp_beginPacket := fun _ _ u => u;
  udp_write := fun bs u =>
    mkMock (mock_delay u) (mock_inbox u) (mock_current u) (mock_chunk u)
           (mock_sent u ++ [bs]);
  udp_endPacket := fun u => u;
  udp_parsePacket := mock_parsePacket;
  udp_available := fun u => (Z.of_nat (length (mock_current u)), u);
  udp_read := mock_read;
  udp_stop := fun u =>
    mkMock (mock_delay u) (mock_inbox u) [] (mock_chunk u) (mock_sent u)
|}.

(** A server reply on the wire: 48 bytes whose originate, receive and
    transmit seconds are [t1], [t2] and [t3], everything else zero. *)
Definition reply_bytes (t1 t2 t3 : Z) : list Z :=
  repeat 0 24 ++ be32 t1 ++ [0; 0; 0; 0] ++ be32 t2 ++ [0; 0; 0; 0]
  ++ be32 t3 ++ [0; 0; 0; 0].

Definition esp32 : Platform := mkPlatform true Long32.
Definition desktop : Platform := mkPlatform true Long64.

(** ** Scenarios *)

(** A set of transport states from which [parsePacket] returns 0 for
    ever: no datagram arrives. *)
Definition never_reports {U : Type} `{UDPAPI U} (P : U -> Prop) : Prop :=
  forall u, P u -> fst (udp_parsePacket u) = 0 /\ P (snd (udp_parsePacket u)).

(** The scripted transport with nothing in its inbox, and the states in
    which it has nothing to deliver. *)
Definition silent : MockUDP := mkMock 0 [] [] 48 [].

Definition mock_silent (u : MockUDP) : Prop :=
  mock_delay u = O /\ mock_inbox u = [].

(** A counter that reads [t0] at the first call of [::millis()] and
    advances by one millisecond per call. *)
Definition running_clock (t0 : Z) : nat -> Z := fun k => t0 + Z.of_nat k.

Definition running_world (t0 : Z) (u : MockUDP) : World MockUDP :=
  mkWorld (running_clock t0) O u [].

(** The scripted transport with datagrams on their way, and the one
    that has just reported [dgram] to [parsePacket]. *)
Definition incoming (dgrams : list (list Z)) : MockUDP :=
  mkMock 0 dgrams [] 48 [].

Definition arrived (dgram : list Z) : MockUDP :=
  mkMock 0 [] dgram 48 [].

(** A client with an anchor taken at tick 5 whose estimate of the time,
    in NTP seconds, is 1001 (modulo 2^32) during the first second after
    the anchor. *)
Definition synced_client : TinyNTPClient :=
  mkClient "pool.ntp.org"%string 123 0 2085979497 5 6000.

(** A client out of the constructor with a time-out of 50 ms, and a
    server reply whose transmit seconds are 1700000000 in Unix time. *)
Definition impatient_client : TinyNTPClient :=
  new_client "pool.ntp.org"%string 123 50.

Definition server_reply : list Z :=
  reply_bytes 0 0 (NTP_EPOCH_DELTA + 1700000000).

(** The scripted transport can still complete a response of which
    [totalRead] bytes are in: it holds the missing bytes and hands out at
    least one per [read]. *)
Definition mock_has (totalRead : Z) (u : MockUDP) : Prop :=
  sizeof_NTPPacket - totalRead <= Z.of_nat (length (mock_current u))
  /\ 1 <= mock_chunk u.

(** A synchronized client with an offset of one hour and a time-out of
    50 ms. *)
Definition synced_impatient_client : TinyNTPClient :=
  mkClient "pool.ntp.org"%string 123 3600 1700000000 5 50.

(** The state of the UDP object after [n] calls of [parsePacket]. *)
Fixpoint poll_state {U : Type} `{UDPAPI U} (n : nat) (u : U) : U :=
  match n with
  | O => u
  | S n' => poll_state n' (snd (udp_parsePacket u))
  end.

(** A [read] never returns nor stores more than it was asked for. *)
Definition read_bounded (U : Type) `{UDPAPI U} : Prop :=
  forall (len : Z) (u : U),
    0 < len ->
    fst (fst (udp_read len u)) <= len
    /\ Z.of_nat (length (snd (fst (udp_read len u)))) <= len.

(** A transport that ignores the length it is given: every [read] hands
    out all the bytes it holds. *)
Record GreedyUDP : Set := mkGreedy { greedy_bytes : list Z }.

#[export] Instance GreedyUDP_API : UDPAPI GreedyUDP := {|
  udp_begin := fun _ u => u;
  udp_beginPacket := fun _ _ u => u;
  udp_write := fun _ u => u;
  udp_endPacket := fun u => u;
  udp_parsePacket := fun u => (Z.of_nat (length (greedy_bytes u)), u);
  udp_available := fun u => (Z.of_nat (length (greedy_bytes u)), u);
  udp_read := fun _ u =>
    (Z.of_nat (length (greedy_bytes u)), greedy_bytes u, mkGreedy []);
  udp_stop := fun u => u
|}.

(** ** Byte order: [swap32] reverses the four bytes *)

Lemma lor_disjoint_add (a b n : Z) :
  0 <= n -> 0 <= b < 2 ^ n -> Z.lor (a * 2 ^ n) b = a * 2 ^ n + b.
Proof.
  intros Hn Hb.
  rewrite <- (Z.add_lor_land (a * 2 ^ n) b).
  assert (E : Z.land (a * 2 ^ n) b = 0).
  { apply Z.bits_inj'. intros k Hk.
    rewrite Z.land_spec, Z.bits_0.
    destruct (Z.lt_ge_cases k n) as [Hlt | Hge].
    - rewrite Z.mul_pow2_bits_low by lia. reflexivity.
    - destruct (Z.eq_dec b 0) as [-> | Hb0].
      + rewrite Z.bits_0. apply Bool.andb_false_r.
      + assert (Z.log2 b < n) by (apply Z.log2_lt_pow2; lia).
        rewrite (Z.bits_above_log2 b k) by lia.
        apply Bool.andb_false_r. }
  rewrite E. lia.
Qed.

Lemma land_byte_mask (v k : Z) :
  0 <= k ->
  Z.land v (Z.shiftl (Z.ones 8) k) = ((v / 2 ^ k) mod 2 ^ 8) * 2 ^ k.
Proof.
  intros Hk.
  rewrite <- Z.shiftl_mul_pow2, <- Z.land_ones, <- Z.shiftr_div_pow2 by lia.
  apply Z.bits_inj'. intros n Hn.
  rewrite Z.land_spec, !Z.shiftl_spec by lia.
  destruct (Z.lt_ge_cases n k) as [Hlt | Hge].
  - rewrite !(Z.testbit_neg_r _ (n - k)) by lia.
    apply Bool.andb_false_r.
  - rewrite Z.land_spec, Z.shiftr_spec by lia.
    replace (n - k + k) with n by lia. reflexivity.
Qed.

Lemma swap32_sum (v : Z) :
  swap32 v = (v mod 2 ^ 8) * 2 ^ 24 + ((v / 2 ^ 8) mod 2 ^ 8) * 2 ^ 16
             + ((v / 2 ^ 16) mod 2 ^ 8) * 2 ^ 8 + (v / 2 ^ 24) mod 2 ^ 8.
Proof.
  unfold swap32.
  change 0x000000FF with (Z.shiftl (Z.ones 8) 0).
  change 0x0000FF00 with (Z.shiftl (Z.ones 8) 8).
  change 0x00FF0000 with (Z.shiftl (Z.ones 8) 16).
  change 0xFF000000 with (Z.shiftl (Z.ones 8) 24).
  rewrite !land_byte_mask by lia.
  rewrite !Z.shiftl_mul_pow2, !Z.shiftr_div_pow2 by lia.
  set (b0 := (v / 2 ^ 0) mod 2 ^ 8).
  set (b1 := (v / 2 ^ 8) mod 2 ^ 8).
  set (b2 := (v / 2 ^ 16) mod 2 ^ 8).
  set (b3 := (v / 2 ^ 24) mod 2 ^ 8).
  assert (H0 : 0 <= b0 < 2 ^ 8) by (apply Z.mod_pos_bound; lia).
  assert (H1 : 0 <= b1 < 2 ^ 8) by (apply Z.mod_pos_bound; lia).
  assert (H2 : 0 <= b2 < 2 ^ 8) by (apply Z.mod_pos_bound; lia).
  assert (H3 : 0 <= b3 < 2 ^ 8) by (apply Z.mod_pos_bound; lia).
  assert (E0 : v mod 2 ^ 8 = b0)
    by (unfold b0; rewrite Z.pow_0_r, Z.div_1_r; reflexivity).
  rewrite E0.
  replace (b0 * 2 ^ 0 * 2 ^ 24) with (b0 * 2 ^ 24) by lia.
  replace (b1 * 2 ^ 8 * 2 ^ 8) with (b1 * 2 ^ 16) by lia.
  replace (b2 * 2 ^ 16 / 2 ^ 8) with (b2 * 2 ^ 8)
    by (change (2 ^ 16) with (2 ^ 8 * 2 ^ 8);
        rewrite Z.mul_assoc, Z.div_mul by lia; reflexivity).
  replace (b3 * 2 ^ 24 / 2 ^ 24) with b3 by (rewrite Z.div_mul by lia; reflexivity).
  rewrite (lor_disjoint_add b0 (b1 * 2 ^ 16) 24) by lia.
  replace (b0 * 2 ^ 24 + b1 * 2 ^ 16) with ((b0 * 2 ^ 8 + b1) * 2 ^ 16) by lia.
  rewrite (lor_disjoint_add _ (b2 * 2 ^ 8) 16) by lia.
  replace ((b0 * 2 ^ 8 + b1) * 2 ^ 16 + b2 * 2 ^ 8)
    with ((b0 * 2 ^ 16 + b1 * 2 ^ 8 + b2) * 2 ^ 8) by lia.
  rewrite (lor_disjoint_add _ b3 8) by lia.
  lia.
Qed.

Lemma bytes_of_sum (b0 b1 b2 b3 : Z) :
  is_byte b0 -> is_byte b1 -> is_byte b2 -> is_byte b3 ->
  let v := b0 * 2 ^ 24 + b1 * 2 ^ 16 + b2 * 2 ^ 8 + b3 in
  v mod 2 ^ 8 = b3 /\ (v / 2 ^ 8) mod 2 ^ 8 = b2 /\
  (v / 2 ^ 16) mod 2 ^ 8 = b1 /\ (v / 2 ^ 24) mod 2 ^ 8 = b0.
Proof.
  unfold is_byte. intros H0 H1 H2 H3. cbv zeta.
  change (2 ^ 24) with 16777216. change (2 ^ 16) with 65536.
  change (2 ^ 8) with 256.
  repeat split; Z.div_mod_to_equations; lia.
Qed.

Lemma mod_is_byte (x : Z) : is_byte (x mod 2 ^ 8).
Proof. unfold is_byte. change 256 with (2 ^ 8). apply Z.mod_pos_bound. lia. Qed.

(** The request's transmit seconds reach the wire in network order on
    either kind of host. *)
Lemma store32_htonl (host : Platform) (v : Z) :
  store32 host (l_htonl host v) = be32 v.
Proof.
  unfold store32, l_htonl, be32, isLittleEndian.
  destruct (little_endian host); [| reflexivity].
  rewrite swap32_sum.
  change 256 with (2 ^ 8).
  destruct (bytes_of_sum (v mod 2 ^ 8) ((v / 2 ^ 8) mod 2 ^ 8)
              ((v / 2 ^ 16) mod 2 ^ 8) ((v / 2 ^ 24) mod 2 ^ 8))
    as (E0 & E1 & E2 & E3); try apply mod_is_byte.
  cbv zeta in E0, E1, E2, E3.
  rewrite E0, E1, E2, E3. reflexivity.
Qed.

Lemma swap32_0 : swap32 0 = 0.
Proof. reflexivity. Qed.

(** A member read from the response buffer and passed through [l_ntohl]
    is the big-endian value of its four wire bytes, on either kind of
    host. *)
Lemma ntohl_load32 (host : Platform) (bs : list Z) :
  Forall is_byte bs -> l_ntohl host (load32 host bs) = be_value bs.
Proof.
  intros Hbs. unfold l_ntohl, load32, be_value, isLittleEndian.
  destruct bs as [| a [| b [| c [| d [| e rest]]]]];
    try (destruct (little_endian host); reflexivity).
  inversion Hbs as [| ? ? Ha Hbs1]; subst.
  inversion Hbs1 as [| ? ? Hb Hbs2]; subst.
  inversion Hbs2 as [| ? ? Hc Hbs3]; subst.
  inversion Hbs3 as [| ? ? Hd _]; subst.
  destruct (little_endian host).
  - rewrite swap32_sum.
    replace (a + b * 2 ^ 8 + c * 2 ^ 16 + d * 2 ^ 24)
      with (d * 2 ^ 24 + c * 2 ^ 16 + b * 2 ^ 8 + a) by lia.
    destruct (bytes_of_sum d c b a) as (E0 & E1 & E2 & E3); auto.
    cbv zeta in E0, E1, E2, E3.
    rewrite E0, E1, E2, E3. lia.
  - lia.
Qed.

(** ** Arithmetic of the fixed-width types *)

Lemma u32_range (x : Z) : is_u32 (u32 x).
Proof. unfold is_u32, u32. apply Z.mod_pos_bound. lia. Qed.

Lemma u32_small (x : Z) : is_u32 x -> u32 x = x.
Proof. unfold is_u32, u32. intros Hx. apply Z.mod_small. exact Hx. Qed.

Lemma u64_small (x : Z) : 0 <= x < 2 ^ 64 -> u64 x = x.
Proof. unfold u64. intros Hx. apply Z.mod_small. exact Hx. Qed.

(** The sum of [getTimeMs], evaluated step by step in [uint64_t], is the
    sum over the integers reduced once. *)
Lemma u64_time_sum (s e o : Z) :
  u64 (u64 (u64 (s * 1000) + e) + u64 (u64 o * 1000))
  = u64 (s * 1000 + e + o * 1000).
Proof.
  unfold u64.
  rewrite Z.mul_mod_idemp_l by lia.
  rewrite Z.add_mod_idemp_l by lia.
  rewrite Z.add_mod_idemp_r by lia.
  rewrite <- Z.add_assoc.
  rewrite Z.add_mod_idemp_l by lia.
  rewrite Z.add_assoc.
  reflexivity.
Qed.

Lemma to_long_small (lw : LongWidth) (x : Z) :
  - 2 ^ (long_bits lw - 1) <= x < 2 ^ (long_bits lw - 1) -> to_long lw x = x.
Proof.
  unfold to_long. destruct lw; simpl long_bits; intros Hx.
  - change (2 ^ (32 - 1)) with 2147483648 in *.
    change (2 ^ 32) with 4294967296.
    rewrite Z.mod_small; lia.
  - change (2 ^ (64 - 1)) with 9223372036854775808 in *.
    change (2 ^ 64) with 18446744073709551616.
    rewrite Z.mod_small; lia.
Qed.

(** ** The time base *)

Section TimeBase.

Context {U : Type}.

Lemma millis_frame (w : World U) :
  udp (snd (millis w)) = udp w /\ serial (snd (millis w)) = serial w
  /\ clock (snd (millis w)) = clock w.
Proof. unfold millis. simpl. auto. Qed.

Lemma getTimeMs_no_anchor (c : TinyNTPClient) (w : World U) :
  _lastUpdateMillis c = 0 -> getTimeMs c w = (0, w).
Proof. intros E. unfold getTimeMs. rewrite E. reflexivity. Qed.

Lemma getTimeSec_no_anchor (c : TinyNTPClient) (w : World U) :
  _lastUpdateMillis c = 0 -> getTimeSec c w = (0, w).
Proof.
  intros E. unfold getTimeSec. rewrite getTimeMs_no_anchor by exact E.
  reflexivity.
Qed.

Lemma getTimeMs_value (c : TinyNTPClient) (w : World U) :
  fst (getTimeMs c w) =
  if _lastUpdateMillis c =? 0 then 0
  else u64 (_lastNtpTime c * 1000
            + ms_since_update (fst (millis w)) (_lastUpdateMillis c)
            + _timeOffsetSeconds c * 1000).
Proof.
  unfold getTimeMs. destruct (_lastUpdateMillis c =? 0); [reflexivity |].
  unfold millis. simpl. apply u64_time_sum.
Qed.

Lemma getTimeMs_frame (c : TinyNTPClient) (w : World U) :
  udp (snd (getTimeMs c w)) = udp w
  /\ serial (snd (getTimeMs c w)) = serial w
  /\ clock (snd (getTimeMs c w)) = clock w.
Proof.
  unfold getTimeMs. destruct (_lastUpdateMillis c =? 0); simpl; auto.
Qed.

Lemma getTimeSec_frame (c : TinyNTPClient) (w : World U) :
  udp (snd (getTimeSec c w)) = udp w
  /\ serial (snd (getTimeSec c w)) = serial w
  /\ clock (snd (getTimeSec c w)) = clock w.
Proof.
  unfold getTimeSec.
  destruct (getTimeMs c w) as [ms w1] eqn:E. simpl.
  pose proof (getTimeMs_frame c w) as F. rewrite E in F. exact F.
Qed.

(** C2, as the code has it.  [getTimeMs] returns 0 when the stored
    reference tick [_lastUpdateMillis] is 0: that is the state of a
    freshly constructed client, and it is also the state left by a
    successful exchange whose reply arrived at counter reading 0.
    Otherwise it returns
    [_lastNtpTime * 1000 + elapsed + _timeOffsetSeconds * 1000] as a
    [uint64_t], where [elapsed] is the wrapped difference between the
    counter read now and the tick stored with the anchor.  The value is
    the exact sum whenever the sum is representable.  The call touches
    neither the UDP object nor the serial output. *)
Theorem getTimeMs_spec (c : TinyNTPClient) (w : World U) :
  let elapsed := ms_since_update (fst (millis w)) (_lastUpdateMillis c) in
  let sum := _lastNtpTime c * 1000 + elapsed + _timeOffsetSeconds c * 1000 in
  fst (getTimeMs c w) = (if operator_bool c then u64 sum else 0)
  /\ (operator_bool c = true -> 0 <= sum < 2 ^ 64 ->
      fst (getTimeMs c w) = sum)
  /\ (forall server port timeoutMs,
        operator_bool (new_client server port timeoutMs) = false
        /\ fst (getTimeMs (new_client server port timeoutMs) w) = 0)
  /\ udp (snd (getTimeMs c w)) = udp w
  /\ serial (snd (getTimeMs c w)) = serial w.
Proof.
  cbv zeta. pose proof (getTimeMs_value c w) as V.
  pose proof (getTimeMs_frame c w) as (Fu & Fs & _).
  unfold operator_bool.
  repeat split; try assumption.
  - rewrite V. destruct (_lastUpdateMillis c =? 0); reflexivity.
  - intros Hb Hs. rewrite V.
    destruct (_lastUpdateMillis c =? 0); [discriminate |].
    apply u64_small. exact Hs.
Qed.

(** Subtraction in [uint32_t]: for any two readings the difference is
    the one 32-bit value that, added to the older reading, gives the
    newer one. *)
Lemma ms_since_update_spec (now ref : Z) :
  is_u32 now ->
  is_u32 (ms_since_update now ref)
  /\ u32 (ref + ms_since_update now ref) = now.
Proof.
  intros Hnow. unfold ms_since_update. split; [apply u32_range |].
  unfold u32. rewrite Z.add_mod_idemp_r by lia.
  replace (ref + (now - ref)) with now by lia.
  apply Z.mod_small. exact Hnow.
Qed.

(** C6. The elapsed time is a subtraction in [uint32_t], for every pair
    of readings.  When [e] milliseconds have really passed since the
    anchor was taken at tick [ref], so that the counter now reads
    [ref + e] wrapped to 32 bits, the difference is [e] again, also
    across a roll-over of the counter (reference tick 2^32 - 10, current
    tick 5: 15 ms), and it is the value [getTimeMs] adds. *)
Theorem elapsed_rollover (c : TinyNTPClient) (w : World U) (e : Z) :
  is_u32 (_lastUpdateMillis c) ->
  _lastUpdateMillis c <> 0 ->
  0 <= e < 2 ^ 32 ->
  fst (millis w) = u32 (_lastUpdateMillis c + e) ->
  ms_since_update (fst (millis w)) (_lastUpdateMillis c) = e
  /\ fst (getTimeMs c w)
     = u64 (_lastNtpTime c * 1000 + e + _timeOffsetSeconds c * 1000)
  /\ ms_since_update 5 (2 ^ 32 - 10) = 15
  /\ (forall now ref,
        ms_since_update now ref = (now - ref) mod 2 ^ 32
        /\ (is_u32 now ->
            0 <= ms_since_update now ref < 2 ^ 32
            /\ (ref + ms_since_update now ref) mod 2 ^ 32 = now)).
Proof.
  intros Href Hnz He Hnow.
  assert (E : ms_since_update (fst (millis w)) (_lastUpdateMillis c) = e).
  { rewrite Hnow. unfold ms_since_update, u32.
    rewrite Zminus_mod_idemp_l.
    replace (_lastUpdateMillis c + e - _lastUpdateMillis c) with e by lia.
    apply Z.mod_small. exact He. }
  split; [exact E |]. split; [| split; [reflexivity |]].
  - rewrite getTimeMs_value.
    destruct (_lastUpdateMillis c =? 0) eqn:Z0; [lia |].
    rewrite E. reflexivity.
  - intros now ref. split; [reflexivity |]. apply ms_since_update_spec.
Qed.

End TimeBase.

(** ** One exchange *)

Section Exchange.

Variable host : Platform.
Context {U : Type} `{UDPAPI U}.

Lemma ntpExchange_unfold (fuel : nat) (tx_s : Z) (c : TinyNTPClient)
    (w : World U) :
  ntpExchange host fuel tx_s c w =
  match ntpExchange_wait fuel (deadline host tx_s c w) (wait_start host tx_s c w) with
  | None => None
  | Some (None, w3) => Some (false, c, w3)
  | Some (Some packetSize, w3) =>
      Some (ntpExchange_read host tx_s c packetSize w3)
  end.
Proof. reflexivity. Qed.

Lemma ntpExchange_send_frame (tx_s : Z) (c : TinyNTPClient) (w : World U) :
  serial (ntpExchange_send host tx_s c w) = serial w
  /\ clock (ntpExchange_send host tx_s c w) = clock w
  /\ clock_reads (ntpExchange_send host tx_s c w) = clock_reads w.
Proof. unfold ntpExchange_send, set_udp. simpl. auto. Qed.

(** The wait loop leaves the serial output alone unless it times out. *)
Lemma ntpExchange_wait_serial (fuel : nat) (timeout_ms : Z) :
  forall (w : World U) r w',
    ntpExchange_wait fuel timeout_ms w = Some (r, w') ->
    match r with
    | None => serial w' = serial w ++ [LogTimedOut]
    | Some packetSize => serial w' = serial w /\ packetSize <> 0
    end.
Proof.
  induction fuel as [| fuel IH]; intros w r w' E; simpl in E; [discriminate |].
  destruct (udp_parsePacket (udp w)) as [packetSize u1].
  destruct (packetSize =? 0) eqn:Ez.
  - unfold millis in E. simpl in E.
    match type of E with
    | (if ?b then _ else _) = _ => destruct b
    end.
    + inversion E; subst. reflexivity.
    + apply IH in E. simpl in E. exact E.
  - inversion E; subst. simpl. split; [reflexivity |].
    apply Z.eqb_neq. exact Ez.
Qed.

(** A result of the wait loop does not depend on the fuel that was left
    over: [Some] is what the loop of the source does. *)
Lemma ntpExchange_wait_more_fuel (fuel : nat) (timeout_ms : Z) :
  forall (w : World U) r (extra : nat),
    ntpExchange_wait fuel timeout_ms w = Some r ->
    ntpExchange_wait (fuel + extra) timeout_ms w = Some r.
Proof.
  induction fuel as [| fuel IH]; intros w r extra E; simpl in E;
    [discriminate |].
  simpl. destruct (udp_parsePacket (udp w)) as [packetSize u1].
  destruct (packetSize =? 0); [| exact E].
  destruct (u32 (clock w (clock_reads w)) >? timeout_ms); [exact E |].
  apply IH. exact E.
Qed.

Lemma ntpExchange_more_fuel (fuel extra : nat) (tx_s : Z)
    (c : TinyNTPClient) (w : World U) r :
  ntpExchange host fuel tx_s c w = Some r ->
  ntpExchange host (fuel + extra) tx_s c w = Some r.
Proof.
  rewrite !ntpExchange_unfold.
  destruct (ntpExchange_wait fuel _ _) as [r0 |] eqn:Ew; [| discriminate].
  rewrite (ntpExchange_wait_more_fuel _ _ _ _ extra Ew).
  intros E. exact E.
Qed.

Lemma ntpExchange_update_inv (tx_s t3_millis : Z) (response : NTPPacket)
    (c : TinyNTPClient) (w : World U) :
  exists ntpTime w',
    ntpExchange_update host tx_s t3_millis response c w
    = (true, set_anchor c ntpTime t3_millis, w')
    /\ serial w' = serial w.
Proof.
  unfold ntpExchange_update.
  destruct (negb (tx_s =? 0)).
  - pose proof (getTimeSec_frame c w) as (_ & Fs & _).
    destruct (getTimeSec c w) as [t3_unix w1]. simpl in Fs.
    eexists. eexists. split; [reflexivity | exact Fs].
  - eexists. eexists. split; reflexivity.
Qed.

(** What the part after the wait loop can do to the client: nothing, with
    one line on the serial output, or both assignments. *)
Lemma ntpExchange_read_inv (tx_s : Z) (c : TinyNTPClient) (packetSize : Z)
    (w : World U) ok c' w' :
  ntpExchange_read host tx_s c packetSize w = (ok, c', w') ->
  (ok = false /\ c' = c
   /\ ((packetSize < sizeof_NTPPacket
        /\ serial w' = serial w ++ [LogTooShort packetSize])
       \/ (exists totalRead, totalRead < sizeof_NTPPacket
           /\ serial w' = serial w ++ [LogIncomplete totalRead])))
  \/ (ok = true /\ serial w' = serial w
      /\ exists ntpTime, c' = set_anchor c ntpTime (fst (millis w))).
Proof.
  unfold ntpExchange_read, millis. simpl fst. cbv iota beta.
  destruct (packetSize <? sizeof_NTPPacket) eqn:Eps.
  - destruct (udp_read packetSize _) as [[r d] u1]. simpl.
    intros E. inversion E; subst. left. repeat split.
    left. split; [apply Z.ltb_lt; exact Eps | reflexivity].
  - destruct (ntpExchange_readLoop _ _ _) as [[totalRead buffer'] u1].
    destruct (totalRead <? sizeof_NTPPacket) eqn:Etr.
    + intros E. inversion E; subst. left. repeat split.
      right. exists totalRead. split; [apply Z.ltb_lt; exact Etr | reflexivity].
    + intros E.
      destruct (ntpExchange_update_inv tx_s
                  (u32 (clock w (clock_reads w)))
                  (packet_of_bytes host buffer') c
                  (set_udp
                     (mkWorld (clock w) (S (clock_reads w)) (udp w) (serial w))
                     u1))
        as (ntpTime & w'' & Eu & Es).
      rewrite Eu in E. inversion E; subst. right. repeat split.
      * exact Es.
      * exists ntpTime. reflexivity.
Qed.

(** A failed exchange returns the client it was given; a successful one
    returns it with both anchor fields assigned. *)
Lemma ntpExchange_inv (fuel : nat) (tx_s : Z) (c : TinyNTPClient)
    (w : World U) ok c' w' :
  ntpExchange host fuel tx_s c w = Some (ok, c', w') ->
  (ok = false /\ c' = c)
  \/ (ok = true /\ exists ntpTime t3_millis,
        c' = set_anchor c ntpTime t3_millis).
Proof.
  rewrite ntpExchange_unfold.
  destruct (ntpExchange_wait _ _ _) as [[[packetSize |] w3] |];
    [| | discriminate].
  - intros E. inversion E as [E1]. apply ntpExchange_read_inv in E1.
    destruct E1 as [(-> & -> & _) | (-> & _ & ntpTime & ->)].
    + left. split; reflexivity.
    + right. split; [reflexivity |]. eauto.
  - intros E. inversion E; subst. left. split; reflexivity.
Qed.

Lemma ntpExchange_keeps_offset (fuel : nat) (tx_s : Z) (c : TinyNTPClient)
    (w : World U) ok c' w' :
  ntpExchange host fuel tx_s c w = Some (ok, c', w') ->
  _timeOffsetSeconds c' = _timeOffsetSeconds c.
Proof.
  intros E. apply ntpExchange_inv in E.
  destruct E as [(_ & ->) | (_ & ntpTime & t3 & ->)]; reflexivity.
Qed.

Lemma updateWithRTC_unfold (fuel : nat) (c : TinyNTPClient) (w : World U) :
  updateWithRTC host fuel c w =
  ntpExchange host fuel (u32 (fst (getTimeSec c w) + NTP_EPOCH_DELTA)) c
              (snd (getTimeSec c w)).
Proof.
  unfold updateWithRTC. destruct (getTimeSec c w) as [t0 w1]. reflexivity.
Qed.

Lemma update_keeps_offset (fuel : nat) (c : TinyNTPClient) (w : World U)
    ok c' w' :
  update host fuel c w = Some (ok, c', w') ->
  _timeOffsetSeconds c' = _timeOffsetSeconds c.
Proof.
  unfold update, updateWithoutRTC.
  destruct (_lastUpdateMillis c =? 0).
  - destruct (ntpExchange host fuel 0 c w) as [[[[|] c1] w1] |] eqn:E1;
      [| | discriminate].
    + rewrite updateWithRTC_unfold. intros E2.
      apply ntpExchange_keeps_offset in E1.
      apply ntpExchange_keeps_offset in E2. congruence.
    + intros E2. inversion E2; subst.
      apply ntpExchange_keeps_offset in E1. exact E1.
  - rewrite updateWithRTC_unfold. apply ntpExchange_keeps_offset.
Qed.

End Exchange.

(** ** Failure leaves the anchor alone *)

Section Sync.

Variable host : Platform.
Context {U : Type} `{UDPAPI U}.

Lemma wait_start_serial (tx_s : Z) (c : TinyNTPClient) (w : World U) :
  serial (wait_start host tx_s c w) = serial w.
Proof. reflexivity. Qed.

(** C9, as the code has it.  [operator bool] is true exactly when the
    stored reference tick is non-zero.  It is false for a newly
    constructed client, a failed exchange leaves it as it was, and a
    successful exchange makes it true exactly when the counter read at
    the arrival of the reply was not 0. *)
Theorem operator_bool_after_exchange (fuel : nat) (tx_s : Z)
    (c : TinyNTPClient) (w : World U) ok c' w' :
  ntpExchange host fuel tx_s c w = Some (ok, c', w') ->
  (operator_bool c' = true <-> _lastUpdateMillis c' <> 0)
  /\ (forall server port timeoutMs,
        operator_bool (new_client server port timeoutMs) = false)
  /\ if ok then
       exists packetSize w3,
         ntpExchange_wait fuel (deadline host tx_s c w)
                          (wait_start host tx_s c w)
         = Some (Some packetSize, w3)
         /\ operator_bool c' = negb (fst (millis w3) =? 0)
     else operator_bool c' = operator_bool c.
Proof.
  intros E. split; [| split; [reflexivity |]].
  - unfold operator_bool.
    destruct (_lastUpdateMillis c' =? 0) eqn:Ez; simpl.
    + apply Z.eqb_eq in Ez. split; [discriminate | congruence].
    + apply Z.eqb_neq in Ez. split; auto.
  - rewrite ntpExchange_unfold in E.
    destruct (ntpExchange_wait _ _ _) as [[[packetSize |] w3] |] eqn:Ew;
      [| | discriminate].
    + inversion E as [E1]. apply ntpExchange_read_inv in E1.
      destruct E1 as [(-> & -> & _) | (-> & _ & ntpTime & ->)].
      * reflexivity.
      * exists packetSize, w3. split; reflexivity.
    + inversion E; subst. reflexivity.
Qed.


(** C10. [end] sets the time offset to 0 together with the anchor, so
    whatever [setTimeOffsetSeconds] or [setTimeOffsetHours] stored is
    gone and [getTimeMs] returns 0; [begin] is [end] followed by
    [update], and since no exchange writes the offset, the client that
    [begin] returns has offset 0. *)
Theorem end_discards_offset (c : TinyNTPClient) (w : World U) (v : Z) :
  let reset d := fst (end_ d w) in
  _timeOffsetSeconds (reset c) = 0
  /\ _timeOffsetSeconds (reset (setTimeOffsetSeconds v c)) = 0
  /\ _timeOffsetSeconds (reset (setTimeOffsetHours host v c)) = 0
  /\ _lastNtpTime (reset c) = 0
  /\ _lastUpdateMillis (reset c) = 0
  /\ operator_bool (reset c) = false
  /\ (forall w1 : World U, fst (getTimeMs (reset c) w1) = 0)
  /\ (forall fuel,
        begin host fuel c w = update host fuel (reset c) (snd (end_ c w)))
  /\ (forall fuel ok c' w',
        begin host fuel c w = Some (ok, c', w') ->
        _timeOffsetSeconds c' = 0).
Proof.
  cbv zeta. repeat split.
  intros fuel ok c' w' E. unfold begin in E. simpl in E.
  apply update_keeps_offset in E. exact E.
Qed.

End Sync.

(** ** Reading and decoding the reply *)

Lemma Forall_firstn_keeps {A : Type} (P : A -> Prop) (n : nat) (l : list A) :
  Forall P l -> Forall P (firstn n l).
Proof.
  revert l. induction n as [| n IH]; intros l Hl; simpl; [constructor |].
  destruct Hl as [| x l Hx Hl]; constructor; auto.
Qed.

Lemma Forall_skipn_keeps {A : Type} (P : A -> Prop) (n : nat) (l : list A) :
  Forall P l -> Forall P (skipn n l).
Proof.
  revert l. induction n as [| n IH]; intros l Hl; simpl; [exact Hl |].
  destruct Hl as [| x l Hx Hl]; [constructor | auto].
Qed.

Lemma store_at_bytes (buffer : list Z) (off : Z) (data : list Z) :
  Forall is_byte buffer -> Forall is_byte (store_at buffer off data).
Proof.
  intros Hb. unfold store_at.
  apply Forall_app. split; [apply Forall_firstn_keeps; exact Hb |].
  apply Forall_app. split; [| apply Forall_skipn_keeps; exact Hb].
  apply Forall_map. apply Forall_forall. intros x _.
  apply (mod_is_byte x).
Qed.

(** A write never shortens the memory written to, and keeps its length
    when it ends inside it. *)
Lemma store_at_length (buffer : list Z) (off : Z) (data : list Z) :
  (length buffer <= length (store_at buffer off data))%nat
  /\ ((Z.to_nat off + length data <= length buffer)%nat ->
      length (store_at buffer off data) = length buffer).
Proof.
  unfold store_at.
  rewrite !length_app, length_firstn, length_map, length_skipn.
  split; lia.
Qed.

Lemma zero_buffer_bytes (n : nat) : Forall is_byte (repeat 0 n).
Proof.
  induction n as [| n IH]; simpl; constructor; [unfold is_byte; lia | exact IH].
Qed.

Lemma be_value_range (bs : list Z) : Forall is_byte bs -> is_u32 (be_value bs).
Proof.
  intros Hbs. unfold be_value, is_u32.
  destruct bs as [| a [| b [| c [| d [| e rest]]]]]; try lia.
  inversion Hbs as [| ? ? Ha Hbs1]; subst.
  inversion Hbs1 as [| ? ? Hb Hbs2]; subst.
  inversion Hbs2 as [| ? ? Hc Hbs3]; subst.
  inversion Hbs3 as [| ? ? Hd _]; subst.
  unfold is_byte in *. lia.
Qed.

Lemma to_long32_u32 (d : Z) :
  - 2 ^ 31 <= d < 2 ^ 31 -> to_long Long32 (u32 d) = d.
Proof.
  intros Hd. unfold to_long, u32. simpl long_bits.
  change (2 ^ (32 - 1)) with 2147483648.
  change (2 ^ 31) with 2147483648 in Hd.
  change (2 ^ 32) with 4294967296.
  rewrite Z.add_mod_idemp_l by lia.
  rewrite Z.mod_small; lia.
Qed.

Lemma to_long64_u32 (d : Z) :
  0 <= d < 2 ^ 32 -> to_long Long64 (u32 d) = d.
Proof.
  intros Hd. rewrite u32_small by exact Hd.
  apply to_long_small. simpl long_bits.
  change (2 ^ (64 - 1)) with 9223372036854775808.
  change (2 ^ 32) with 4294967296 in Hd. lia.
Qed.

(** On a host with a 32-bit [long] the offset of line 282 is the signed
    one as long as the two differences and their sum fit the type. *)
Lemma ntp_offset_exact32 (host : Platform) (T1 T2 T3 T4 : Z) :
  long_width host = Long32 ->
  - 2 ^ 31 <= T2 - T1 < 2 ^ 31 ->
  - 2 ^ 31 <= T3 - T4 < 2 ^ 31 ->
  - 2 ^ 31 <= (T2 - T1) + (T3 - T4) < 2 ^ 31 ->
  ntp_offset host T1 T2 T3 T4 = Z.quot ((T2 - T1) + (T3 - T4)) 2.
Proof.
  intros Hw H1 H2 H12. unfold ntp_offset. rewrite Hw.
  rewrite !to_long32_u32 by assumption.
  rewrite to_long_small; [reflexivity |].
  simpl long_bits. change (32 - 1) with 31. exact H12.
Qed.

(** On a host with a 64-bit [long] it is, as long as neither difference
    is negative. *)
Lemma ntp_offset_exact64 (host : Platform) (T1 T2 T3 T4 : Z) :
  long_width host = Long64 ->
  is_u32 T1 -> is_u32 T2 -> is_u32 T3 -> is_u32 T4 ->
  0 <= T2 - T1 -> 0 <= T3 - T4 ->
  ntp_offset host T1 T2 T3 T4 = Z.quot ((T2 - T1) + (T3 - T4)) 2.
Proof.
  unfold is_u32. intros Hw B1 B2 B3 B4 H1 H2. unfold ntp_offset. rewrite Hw.
  rewrite !to_long64_u32 by lia.
  rewrite to_long_small; [reflexivity |].
  simpl long_bits. change (2 ^ (64 - 1)) with 9223372036854775808.
  change (2 ^ 32) with 4294967296 in *. lia.
Qed.

Section Reply.

Variable host : Platform.
Context {U : Type} `{UDPAPI U}.

(** The read loop keeps a buffer of bytes a buffer of bytes and never
    shortens it, whatever the transport delivers. *)
Lemma ntpExchange_readLoop_buffer (totalRead : Z) (buffer : list Z) (u : U) :
  Forall is_byte buffer ->
  Forall is_byte (snd (fst (ntpExchange_readLoop totalRead buffer u)))
  /\ (length buffer
      <= length (snd (fst (ntpExchange_readLoop totalRead buffer u))))%nat.
Proof.
  funelim (ntpExchange_readLoop totalRead buffer u); intros Hb;
    try (split; [exact Hb | apply Nat.le_refl]).
  match goal with
  | IH : Forall is_byte (store_at _ _ _) -> _ |- _ =>
      destruct (IH (store_at_bytes _ _ _ Hb)) as [IH1 IH2]
  end.
  split; [exact IH1 |].
  eapply Nat.le_trans; [apply store_at_length | exact IH2].
Qed.

(** The loop only ever adds to the count of bytes read. *)
Lemma ntpExchange_readLoop_count (totalRead : Z) (buffer : list Z) (u : U) :
  totalRead <= fst (fst (ntpExchange_readLoop totalRead buffer u)).
Proof.
  funelim (ntpExchange_readLoop totalRead buffer u); simpl; lia.
Qed.

(** A seconds member of the response, after [l_ntohl], is the big-endian
    value of its four bytes in the buffer. *)
Lemma response_field (buffer : list Z) (off : nat) :
  Forall is_byte buffer ->
  l_ntohl host (load32 host (word_at buffer off)) = be_value (word_at buffer off)
  /\ is_u32 (be_value (word_at buffer off)).
Proof.
  intros Hb.
  assert (Hw : Forall is_byte (word_at buffer off)).
  { unfold word_at. apply Forall_firstn_keeps, Forall_skipn_keeps. exact Hb. }
  split; [apply ntohl_load32; exact Hw | apply be_value_range; exact Hw].
Qed.

(** After the wait loop, the exchange succeeds exactly when the declared
    size is at least 48 and the read loop has collected 48 bytes. *)
Lemma ntpExchange_read_result (tx_s : Z) (c : TinyNTPClient)
    (packetSize : Z) (w : World U) :
  let w1 := snd (millis w) in
  let totalRead :=
    fst (fst (ntpExchange_readLoop 0 (repeat 0 (Z.to_nat sizeof_NTPPacket))
                                   (udp w1))) in
  fst (fst (ntpExchange_read host tx_s c packetSize w))
  = (sizeof_NTPPacket <=? packetSize) && (sizeof_NTPPacket <=? totalRead).
Proof.
  cbv zeta. unfold ntpExchange_read, millis. simpl fst. simpl snd.
  cbv iota beta. simpl udp.
  rewrite (Z.leb_antisym packetSize), (Z.leb_antisym _ sizeof_NTPPacket).
  destruct (packetSize <? sizeof_NTPPacket) eqn:Eps.
  - destruct (udp_read packetSize _) as [[r d] u1]. reflexivity.
  - destruct (ntpExchange_readLoop _ _ _) as [[totalRead buffer'] u1].
    simpl fst.
    destruct (totalRead <? sizeof_NTPPacket); [reflexivity |].
    destruct (ntpExchange_update_inv host tx_s
                (u32 (clock w (clock_reads w)))
                (packet_of_bytes host buffer') c
                (set_udp
                   (mkWorld (clock w) (S (clock_reads w)) (udp w) (serial w))
                   u1))
      as (ntpTime & w'' & Eu & _).
    rewrite Eu. reflexivity.
Qed.

End Reply.

Section Delivery.

Context {U : Type} `{UDPAPI U}.

(** [Inv n u]: in state [u], with [n] bytes read so far, the transport
    still has data and hands out at least one byte when asked. *)
Variable Inv : Z -> U -> Prop.
Hypothesis Hdeliver :
  forall totalRead u,
    Inv totalRead u -> totalRead < sizeof_NTPPacket ->
    fst (udp_available u) <> 0
    /\ fst (fst (udp_read (sizeof_NTPPacket - totalRead)
                          (snd (udp_available u)))) > 0
    /\ Inv (totalRead
            + fst (fst (udp_read (sizeof_NTPPacket - totalRead)
                                 (snd (udp_available u)))))
           (snd (udp_read (sizeof_NTPPacket - totalRead)
                          (snd (udp_available u)))).

Lemma ntpExchange_readLoop_complete (totalRead : Z) (buffer : list Z) (u : U) :
  Inv totalRead u ->
  sizeof_NTPPacket <= fst (fst (ntpExchange_readLoop totalRead buffer u)).
Proof.
  funelim (ntpExchange_readLoop totalRead buffer u); intros Hinv;
    [simpl; lia | | |];
    destruct (Hdeliver _ _ Hinv Hlt) as (Ha & Hr & Hi);
    repeat match goal with
    | E : udp_available _ = _ |- _ =>
        rewrite E in Ha, Hr, Hi; clear E; cbn [fst snd] in Ha, Hr, Hi
    | E : udp_read _ _ = _ |- _ =>
        rewrite E in Hr, Hi; clear E; cbn [fst snd] in Hr, Hi
    end.
  - contradiction.
  - match goal with IH : Inv _ _ -> _ |- _ => apply IH end. exact Hi.
  - lia.
Qed.

End Delivery.

Lemma mock_delivers (totalRead : Z) (u : MockUDP) :
  mock_has totalRead u -> totalRead < sizeof_NTPPacket ->
  fst (udp_available u) <> 0
  /\ fst (fst (udp_read (sizeof_NTPPacket - totalRead)
                        (snd (udp_available u)))) > 0
  /\ mock_has (totalRead
               + fst (fst (udp_read (sizeof_NTPPacket - totalRead)
                                    (snd (udp_available u)))))
              (snd (udp_read (sizeof_NTPPacket - totalRead)
                             (snd (udp_available u)))).
Proof.
  unfold mock_has, sizeof_NTPPacket. intros [Hlen Hchunk] Hlt.
  cbn [udp_available udp_read MockUDP_API fst snd].
  unfold mock_read.
  destruct (mock_current u) as [| b rest] eqn:Ecur.
  - cbn [length Z.of_nat] in Hlen. lia.
  - rewrite <- Ecur in *. clear Ecur b rest.
    set (n := Z.to_nat (Z.min (48 - totalRead) (mock_chunk u))).
    assert (Hn : (1 <= n <= length (mock_current u))%nat) by (unfold n; lia).
    cbn [fst snd mock_current mock_chunk].
    rewrite length_firstn, length_skipn.
    rewrite Nat.min_l by lia.
    split; [lia |]. split; [lia |]. split; [unfold n; lia | exact Hchunk].
Qed.


(** ** The request on the wire and the offset computed from the reply *)

Section Codec.

Variable host : Platform.
Context {U : Type} `{UDPAPI U}.

Lemma store32_zero : store32 host 0 = [0; 0; 0; 0].
Proof. unfold store32. destruct (isLittleEndian host); reflexivity. Qed.

(** C4, as the code has it.  The 48 bytes handed to [write] are: the
    flags byte 0xDB, that is leap indicator 3, version 3, mode 3
    (client); 39 zero bytes; the transmit seconds in network byte order;
    the transmit fraction, 0.  This holds on little- and big-endian
    hosts. *)
Theorem request_on_the_wire (tx_s : Z) (c : TinyNTPClient) (w : World U) :
  let bytes := packet_bytes host (request_packet host tx_s) in
  bytes = [0xDB] ++ repeat 0 39 ++ be32 tx_s ++ [0; 0; 0; 0]
  /\ Z.of_nat (length bytes) = sizeof_NTPPacket
  /\ leap_indicator (nth 0 bytes 0) = 3
  /\ version_number (nth 0 bytes 0) = 3
  /\ mode (nth 0 bytes 0) = 3
  /\ udp (ntpExchange_send host tx_s c w)
     = udp_endPacket
         (udp_write bytes
            (udp_beginPacket (_server c) (_port c)
               (udp_begin (_port c) (udp w)))).
Proof.
  cbv zeta.
  assert (E : packet_bytes host (request_packet host tx_s)
              = [0xDB] ++ repeat 0 39 ++ be32 tx_s ++ [0; 0; 0; 0]).
  { unfold packet_bytes, request_packet. cbn [li_vn_mode stratum poll
      precision rootDelay rootDispersion refId refTm_s refTm_f origTm_s
      origTm_f rxTm_s rxTm_f txTm_s txTm_f].
    rewrite store32_htonl, !store32_zero. reflexivity. }
  split; [exact E |].
  split; [rewrite E; reflexivity |].
  rewrite E.
  split; [reflexivity |]. split; [reflexivity |]. split; [reflexivity |].
  unfold ntpExchange_send, set_udp. cbn [udp]. rewrite E. reflexivity.
Qed.

(** The time stored by the part after the wait loop, when the transmit
    seconds of the request are not 0, in terms of the seconds fields of
    the reply. *)
Lemma ntpExchange_read_offset (tx_s : Z) (c : TinyNTPClient)
    (packetSize : Z) (w : World U) :
  let w1 := snd (millis w) in
  let reply :=
    ntpExchange_readLoop 0 (repeat 0 (Z.to_nat sizeof_NTPPacket)) (udp w1) in
  let buffer := snd (fst reply) in
  let w2 := set_udp w1 (snd reply) in
  let T1 := be_value (word_at buffer 24) in
  let T2 := be_value (word_at buffer 32) in
  let T3 := be_value (word_at buffer 40) in
  let T4 := u32 (fst (getTimeSec c w2) + NTP_EPOCH_DELTA) in
  let offset := ntp_offset host T1 T2 T3 T4 in
  let c' := snd (fst (ntpExchange_read host tx_s c packetSize w)) in
  tx_s <> 0 ->
  fst (fst (ntpExchange_read host tx_s c packetSize w)) = true ->
  _lastNtpTime c' = u32 (T3 - NTP_EPOCH_DELTA + offset)
  /\ _lastUpdateMillis c' = fst (millis w)
  /\ (long_width host = Long32 ->
      - 2 ^ 31 <= T2 - T1 < 2 ^ 31 ->
      - 2 ^ 31 <= T3 - T4 < 2 ^ 31 ->
      - 2 ^ 31 <= (T2 - T1) + (T3 - T4) < 2 ^ 31 ->
      offset = Z.quot ((T2 - T1) + (T3 - T4)) 2)
  /\ (long_width host = Long64 ->
      0 <= T2 - T1 -> 0 <= T3 - T4 ->
      offset = Z.quot ((T2 - T1) + (T3 - T4)) 2)
  /\ ntp_offset host 1000 1005 1006 1001 = 5.
Proof.
  cbv zeta. intros Htx Hok.
  unfold ntpExchange_read in *. unfold millis in *.
  cbn [fst snd udp] in *.
  pose proof (ntpExchange_readLoop_buffer 0
                (repeat 0 (Z.to_nat sizeof_NTPPacket)) (udp w)
                (zero_buffer_bytes _)) as [Hbytes _].
  destruct (ntpExchange_readLoop 0 (repeat 0 (Z.to_nat sizeof_NTPPacket))
              (udp w)) as [[totalRead buffer'] u1].
  cbn [fst snd] in *.
  destruct (response_field host buffer' 24 Hbytes) as [E1 B1].
  destruct (response_field host buffer' 32 Hbytes) as [E2 B2].
  destruct (response_field host buffer' 40 Hbytes) as [E3 B3].
  split; [| split; [| split; [| split]]].
  - destruct (packetSize <? sizeof_NTPPacket).
    + destruct (udp_read packetSize (udp w)) as [[r d] u2].
      cbn [fst snd] in Hok. discriminate Hok.
    + destruct (totalRead <? sizeof_NTPPacket);
        [cbn [fst snd] in Hok; discriminate Hok |].
      unfold ntpExchange_update.
      apply Z.eqb_neq in Htx. rewrite Htx. cbn [negb].
      unfold packet_of_bytes. cbn [origTm_s rxTm_s txTm_s].
      rewrite E1, E2, E3.
      destruct (getTimeSec c _) as [t3_unix w3]. reflexivity.
  - destruct (packetSize <? sizeof_NTPPacket).
    + destruct (udp_read packetSize (udp w)) as [[r d] u2].
      cbn [fst snd] in Hok. discriminate Hok.
    + destruct (totalRead <? sizeof_NTPPacket);
        [cbn [fst snd] in Hok; discriminate Hok |].
      destruct (ntpExchange_update_inv host tx_s
                  (u32 (clock w (clock_reads w)))
                  (packet_of_bytes host buffer') c
                  (set_udp
                     (mkWorld (clock w) (S (clock_reads w)) (udp w) (serial w))
                     u1))
        as (ntpTime & w'' & Eu & _).
      rewrite Eu. reflexivity.
  - intros Hw D1 D2 D12. apply ntp_offset_exact32; assumption.
  - intros Hw D1 D2. apply ntp_offset_exact64; try assumption.
    apply u32_range.
  - unfold ntp_offset. destruct (long_width host); reflexivity.
Qed.

End Codec.

(** ** The wait loop and its deadline *)

Section Timeout.

Variable host : Platform.
Context {U : Type} `{UDPAPI U}.

Variable P : U -> Prop.
Hypothesis Hsilent : never_reports P.

(** With no datagram arriving, the loop reads the counter once per round
    and returns failure at the first reading above [timeout_ms]. *)
Lemma ntpExchange_wait_times_out (timeout_ms : Z) (n : nat) :
  forall (w : World U) (fuel : nat),
    P (udp w) ->
    (forall k, (k < n)%nat ->
               u32 (clock w (clock_reads w + k)) <= timeout_ms) ->
    u32 (clock w (clock_reads w + n)) > timeout_ms ->
    (n < fuel)%nat ->
    exists w',
      ntpExchange_wait fuel timeout_ms w = Some (None, w')
      /\ clock_reads w' = (clock_reads w + n + 1)%nat
      /\ serial w' = serial w ++ [LogTimedOut].
Proof.
  induction n as [| n IH]; intros w fuel Hw Hbefore Hafter Hfuel;
    (destruct fuel as [| fuel]; [lia |]); simpl.
  - destruct (Hsilent _ Hw) as [E0 _].
    destruct (udp_parsePacket (udp w)) as [packetSize u1]. simpl in E0.
    subst packetSize. simpl.
    rewrite Nat.add_0_r in Hafter.
    apply Z.gtb_gt in Hafter. rewrite Hafter.
    eexists. split; [reflexivity |]. simpl. split; [lia | reflexivity].
  - destruct (Hsilent _ Hw) as [E0 Hu1].
    destruct (udp_parsePacket (udp w)) as [packetSize u1]. simpl in E0, Hu1.
    subst packetSize. simpl.
    assert (Hnow : (u32 (clock w (clock_reads w)) >? timeout_ms) = false).
    { assert (Hb0 := Hbefore O (Nat.lt_0_succ n)).
      rewrite Nat.add_0_r in Hb0.
      rewrite Z.gtb_ltb. apply Z.ltb_ge. exact Hb0. }
    rewrite Hnow.
    destruct (IH (mkWorld (clock w) (S (clock_reads w)) u1 (serial w)) fuel)
      as (w' & Ew & Er & Es); simpl.
    + exact Hu1.
    + intros k Hk. apply Nat.succ_lt_mono in Hk.
      assert (Hbk := Hbefore (S k) Hk).
      rewrite Nat.add_succ_r in Hbk. exact Hbk.
    + rewrite Nat.add_succ_r in Hafter. exact Hafter.
    + lia.
    + exists w'. split; [exact Ew |]. simpl in Er, Es.
      split; [lia | exact Es].
Qed.

(** No [uint32_t] reading is above a deadline of 2^32 - 1: with no
    datagram arriving the loop has no exit. *)
Lemma ntpExchange_wait_no_exit (timeout_ms : Z) (fuel : nat) :
  2 ^ 32 - 1 <= timeout_ms ->
  forall w : World U,
    P (udp w) -> ntpExchange_wait fuel timeout_ms w = None.
Proof.
  intros Hmax.
  induction fuel as [| fuel IH]; intros w Hw; simpl; [reflexivity |].
  destruct (Hsilent _ Hw) as [E0 Hu1].
  destruct (udp_parsePacket (udp w)) as [packetSize u1]. simpl in E0, Hu1.
  subst packetSize. simpl.
  assert (Hnow : (u32 (clock w (clock_reads w)) >? timeout_ms) = false).
  { rewrite Z.gtb_ltb. apply Z.ltb_ge.
    pose proof (u32_range (clock w (clock_reads w))) as R.
    unfold is_u32 in R. lia. }
  rewrite Hnow. apply IH. exact Hu1.
Qed.

(** X14. The exchange as a whole: when no datagram arrives and the
    deadline does not wrap, it fails at the first reading of the counter
    above send tick + time-out, and returns the client unchanged. *)
Lemma ntpExchange_times_out (tx_s : Z) (c : TinyNTPClient) (w : World U)
    (n fuel : nat) :
  let w2 := wait_start host tx_s c w in
  let sent := fst (millis (ntpExchange_send host tx_s c w)) in
  P (udp w2) ->
  sent + _timeoutMs c < 2 ^ 32 ->
  0 <= _timeoutMs c ->
  (forall k, (k < n)%nat ->
             u32 (clock w2 (clock_reads w2 + k)) <= sent + _timeoutMs c) ->
  u32 (clock w2 (clock_reads w2 + n)) > sent + _timeoutMs c ->
  (n < fuel)%nat ->
  exists w',
    ntpExchange host fuel tx_s c w = Some (false, c, w')
    /\ clock_reads w' = (clock_reads w2 + n + 1)%nat.
Proof.
  cbv zeta. intros Hw Hnowrap Ht Hbefore Hafter Hfuel.
  rewrite ntpExchange_unfold.
  assert (Ed : deadline host tx_s c w
               = fst (millis (ntpExchange_send host tx_s c w)) + _timeoutMs c).
  { unfold deadline. apply u32_small.
    pose proof (u32_range (clock w (clock_reads w))) as R.
    unfold is_u32 in *. unfold millis in *. simpl fst in *. lia. }
  rewrite Ed.
  destruct (ntpExchange_wait_times_out _ n _ fuel Hw Hbefore Hafter Hfuel)
    as (w' & Ew & Er & _).
  rewrite Ew. exists w'. split; [reflexivity | exact Er].
Qed.

End Timeout.

Lemma mock_silent_never_reports : never_reports mock_silent.
Proof.
  intros u [Hd Hi]. simpl. unfold mock_parsePacket. rewrite Hd, Hi.
  split; [reflexivity | split; assumption].
Qed.

(** C7, where the code departs from it.  With the default time-out of
    6000 ms and no datagram ever arriving: when the request is sent at
    tick 2^32 - 1000 the deadline wraps to 5000 and the exchange fails at
    the first poll, one millisecond after sending; when it is sent at
    tick 2^32 - 6001 the deadline is 2^32 - 1, which no reading exceeds,
    and the exchange never returns. *)
Theorem timeout_deadline_wraps :
  match ntpExchange esp32 1000 0 default_client
                    (running_world (2 ^ 32 - 1000) silent) with
  | Some (false, c', w') =>
      c' = default_client /\ clock_reads w' = 2%nat
      /\ serial w' = [LogTimedOut]
  | _ => False
  end
  /\ forall fuel,
       ntpExchange esp32 fuel 0 default_client
                   (running_world (2 ^ 32 - 6001) silent) = None.
Proof.
  split.
  - vm_compute. repeat split.
  - intros fuel. rewrite ntpExchange_unfold.
    rewrite (ntpExchange_wait_no_exit _ mock_silent_never_reports);
      [reflexivity | vm_compute; discriminate | split; reflexivity].
Qed.

(** ** Concrete runs *)

(** Closes the case of a run whose computed outcome is not the one
    assumed in [E]. *)
Ltac wrong_run E := vm_compute in E; discriminate E.

(** A first [update] with two replies waiting sends two requests: one
    with transmit seconds 0, one with the time taken from the first
    reply, 1700000000 + 2208988800 = 0xE8FE6F80. *)
Example first_update_sends_two_requests :
  match update esp32 10 default_client
               (running_world 100 (incoming [server_reply; server_reply])) with
  | Some (true, c', w') =>
      mock_sent (udp w')
      = [[0xDB] ++ repeat 0 39 ++ [0; 0; 0; 0] ++ [0; 0; 0; 0];
         [0xDB] ++ repeat 0 39 ++ [0xE8; 0xFE; 0x6F; 0x80] ++ [0; 0; 0; 0]]
      /\ _lastNtpTime c' = 1700000000 /\ operator_bool c' = true
  | _ => False
  end.
Proof. vm_compute. repeat split. Qed.

(** Without wrap-around the wait ends when the deadline has passed: sent
    at tick 100 with a time-out of 50 ms, the exchange fails at the
    first reading above 150, the 52nd reading of the counter. *)
Example timeout_without_wrap_run :
  match ntpExchange esp32 100 0 impatient_client (running_world 100 silent) with
  | Some (false, c', w') =>
      c' = impatient_client /\ clock_reads w' = 52%nat
      /\ clock w' 51%nat = 151 /\ serial w' = [LogTimedOut]
  | _ => False
  end.
Proof. vm_compute. repeat split. Qed.

Lemma getTimeMs_spec_witness :
  fst (getTimeMs (mkClient "pool.ntp.org"%string 123 3600 1700000000 100 6000)
                 (running_world 350 silent))
  = 1700000000 * 1000 + 250 + 3600 * 1000.
Proof.
  destruct (getTimeMs_spec
              (mkClient "pool.ntp.org"%string 123 3600 1700000000 100 6000)
              (running_world 350 silent)) as (_ & Hexact & _).
  rewrite Hexact; [reflexivity | reflexivity |].
  vm_compute. split; [discriminate | reflexivity].
Defined.

Lemma elapsed_rollover_witness :
  ms_since_update
    (fst (millis (running_world (2 ^ 32 + 5) silent))) (2 ^ 32 - 10) = 15
  /\ fst (getTimeMs
            (mkClient "pool.ntp.org"%string 123 0 1700000000 (2 ^ 32 - 10) 6000)
            (running_world (2 ^ 32 + 5) silent))
     = 1700000000 * 1000 + 15.
Proof.
  destruct (elapsed_rollover
              (mkClient "pool.ntp.org"%string 123 0 1700000000 (2 ^ 32 - 10)
                        6000)
              (running_world (2 ^ 32 + 5) silent) 15) as (E1 & E2 & _ & _).
  - vm_compute. split; [discriminate | reflexivity].
  - vm_compute. discriminate.
  - vm_compute. split; [discriminate | reflexivity].
  - reflexivity.
  - split; [exact E1 | rewrite E2; reflexivity].
Defined.

Lemma operator_bool_after_exchange_witness :
  match ntpExchange esp32 10 0 default_client
                    (running_world 100 (incoming [server_reply])) with
  | Some (true, c', _) => operator_bool c' = true
  | _ => False
  end.
Proof.
  destruct (ntpExchange esp32 10 0 default_client
                        (running_world 100 (incoming [server_reply])))
    as [[[[|] c'] w'] |] eqn:E.
  - destruct (operator_bool_after_exchange _ _ _ _ _ _ _ _ E) as (Hiff & _).
    apply Hiff. vm_compute in E. injection E as Ec _. subst c'.
    simpl. discriminate.
  - wrong_run E.
  - wrong_run E.
Defined.


Lemma end_discards_offset_witness :
  match begin esp32 10 (setTimeOffsetHours esp32 2 default_client)
              (running_world 100 (incoming [server_reply; server_reply])) with
  | Some (true, c', _) => _timeOffsetSeconds c' = 0
  | _ => False
  end.
Proof.
  destruct (begin esp32 10 (setTimeOffsetHours esp32 2 default_client)
                  (running_world 100 (incoming [server_reply; server_reply])))
    as [[[[|] c'] w'] |] eqn:E.
  - destruct (end_discards_offset esp32
                (setTimeOffsetHours esp32 2 default_client)
                (running_world 100 (incoming [server_reply; server_reply])) 0)
      as (_ & _ & _ & _ & _ & _ & _ & _ & Hb).
    exact (Hb _ _ _ _ E).
  - wrong_run E.
  - wrong_run E.
Defined.

(** 47 bytes are refused, and so are 48 announced bytes of which only 40
    can be read; 48 bytes of 0xFF read at once are accepted. *)
Example garbage_reply_runs :
  fst (fst (ntpExchange_read esp32 0 default_client 48
              (running_world 10 (arrived (repeat 255 48))))) = true
  /\ fst (fst (ntpExchange_read esp32 0 default_client 47
                 (running_world 10 (arrived (repeat 255 47))))) = false
  /\ fst (fst (ntpExchange_read esp32 0 default_client 48
                 (running_world 10 (mkMock 0 [] (repeat 255 40) 7 []))))
     = false.
Proof. vm_compute. repeat split. Qed.

(** C4, where the code departs from it: the leap indicator of the request
    is 3, not 0. *)
Lemma request_leap_indicator_not_0 :
  leap_indicator (nth 0 (packet_bytes esp32 (request_packet esp32 0)) 0) <> 0.
Proof. vm_compute. discriminate. Qed.

(** C9, where the code departs from it: a first [update] whose second
    reply arrives just as the millisecond counter wraps to 0 succeeds,
    and the client reports that it has not synchronized. *)
Lemma sync_at_tick_zero_goes_unreported :
  match update esp32 10 default_client
               (running_world (2 ^ 32 - 4)
                  (incoming [server_reply; server_reply])) with
  | Some (true, c', w') =>
      _lastNtpTime c' = 1700000000 /\ _lastUpdateMillis c' = 0
      /\ operator_bool c' = false /\ fst (getTimeMs c' w') = 0
  | _ => False
  end.
Proof. vm_compute. repeat split. Qed.

(** ** More on byte order *)

Lemma u32_bytes (v : Z) :
  u32 v = v mod 2 ^ 8 + ((v / 2 ^ 8) mod 2 ^ 8) * 2 ^ 8
          + ((v / 2 ^ 16) mod 2 ^ 8) * 2 ^ 16
          + ((v / 2 ^ 24) mod 2 ^ 8) * 2 ^ 24.
Proof.
  unfold u32.
  change (2 ^ 32) with 4294967296. change (2 ^ 24) with 16777216.
  change (2 ^ 16) with 65536. change (2 ^ 8) with 256.
  Z.div_mod_to_equations. lia.
Qed.

Lemma swap32_reverses (v : Z) :
  is_u32 (swap32 v)
  /\ be32 (swap32 v) = rev (be32 v)
  /\ swap32 (swap32 v) = u32 v.
Proof.
  pose proof (swap32_sum v) as S.
  destruct (bytes_of_sum (v mod 2 ^ 8) ((v / 2 ^ 8) mod 2 ^ 8)
              ((v / 2 ^ 16) mod 2 ^ 8) ((v / 2 ^ 24) mod 2 ^ 8))
    as (E0 & E1 & E2 & E3); try apply mod_is_byte.
  cbv zeta in E0, E1, E2, E3. rewrite <- S in E0, E1, E2, E3.
  split; [| split].
  - rewrite S.
    pose proof (mod_is_byte v) as B0.
    pose proof (mod_is_byte (v / 2 ^ 8)) as B1.
    pose proof (mod_is_byte (v / 2 ^ 16)) as B2.
    pose proof (mod_is_byte (v / 2 ^ 24)) as B3.
    unfold is_u32, is_byte in *. lia.
  - unfold be32. change 256 with (2 ^ 8).
    rewrite E0, E1, E2, E3. reflexivity.
  - rewrite (swap32_sum (swap32 v)), E0, E1, E2, E3, (u32_bytes v). lia.
Qed.

(** X1. [swap32] reverses the four low bytes of its argument and drops
    what is above them: the result is a 32-bit value whose bytes in
    network order are those of the argument in reverse, and swapping
    twice gives the argument back (reduced to 32 bits). *)
Theorem swap32_involutive (v : Z) :
  is_u32 (swap32 v)
  /\ be32 (swap32 v) = rev (be32 v)
  /\ swap32 (swap32 v) = u32 v
  /\ swap32 0x01020304 = 0x04030201.
Proof.
  destruct (swap32_reverses v) as (R & B & I).
  split; [exact R |]. split; [exact B |]. split; [exact I | reflexivity].
Qed.

(** X2. [l_htonl] and [l_ntohl] undo each other on 32-bit values, on a
    little-endian and on a big-endian host. *)
Theorem htonl_ntohl_round_trip (host : Platform) (v : Z) :
  is_u32 v ->
  l_ntohl host (l_htonl host v) = v
  /\ l_htonl host (l_ntohl host v) = v
  /\ is_u32 (l_htonl host v).
Proof.
  intros Hv. unfold l_ntohl, l_htonl, isLittleEndian.
  destruct (swap32_reverses v) as (R & _ & I).
  rewrite (u32_small v Hv) in I.
  destruct (little_endian host); auto.
Qed.

Lemma be_value_be32 (v : Z) : be_value (be32 v) = u32 v.
Proof.
  unfold be_value, be32. rewrite (u32_bytes v). change 256 with (2 ^ 8). lia.
Qed.

Lemma be32_bytes (v : Z) : Forall is_byte (be32 v).
Proof.
  unfold be32. change 256 with (2 ^ 8).
  repeat constructor; apply mod_is_byte.
Qed.

Lemma packet_bytes_request (host : Platform) (tx_s : Z) :
  packet_bytes host (request_packet host tx_s)
  = [0xDB] ++ repeat 0 39 ++ be32 tx_s ++ [0; 0; 0; 0].
Proof.
  unfold packet_bytes, request_packet. cbn [li_vn_mode stratum poll
    precision rootDelay rootDispersion refId refTm_s refTm_f origTm_s
    origTm_f rxTm_s rxTm_f txTm_s txTm_f].
  rewrite store32_htonl.
  assert (Z0 : store32 host 0 = [0; 0; 0; 0])
    by (unfold store32; destruct (isLittleEndian host); reflexivity).
  rewrite !Z0. reflexivity.
Qed.

(** X3. The request written on one host, read back as a packet on any
    host, has the transmit seconds it was built with (as a 32-bit
    value), the flags byte 0xDB, and 0 in the originate and receive
    seconds: what goes on the wire does not depend on the byte order of
    the sender, and what is decoded does not depend on that of the
    receiver. *)
Theorem request_decodes_back (sender receiver : Platform) (tx_s : Z) :
  let wire := packet_bytes sender (request_packet sender tx_s) in
  let packet := packet_of_bytes receiver wire in
  l_ntohl receiver (txTm_s packet) = u32 tx_s
  /\ l_ntohl receiver (origTm_s packet) = 0
  /\ l_ntohl receiver (rxTm_s packet) = 0
  /\ li_vn_mode packet = 0xDB.
Proof.
  cbv zeta. rewrite packet_bytes_request.
  unfold packet_of_bytes. cbn [txTm_s origTm_s rxTm_s li_vn_mode].
  change (word_at ([0xDB] ++ repeat 0 39 ++ be32 tx_s ++ [0; 0; 0; 0]) 40)
    with (be32 tx_s).
  change (word_at ([0xDB] ++ repeat 0 39 ++ be32 tx_s ++ [0; 0; 0; 0]) 24)
    with [0; 0; 0; 0].
  change (word_at ([0xDB] ++ repeat 0 39 ++ be32 tx_s ++ [0; 0; 0; 0]) 32)
    with [0; 0; 0; 0].
  rewrite (ntohl_load32 receiver (be32 tx_s) (be32_bytes tx_s)), be_value_be32.
  assert (Z4 : Forall is_byte [0; 0; 0; 0])
    by (repeat constructor; unfold is_byte; lia).
  rewrite (ntohl_load32 receiver [0; 0; 0; 0] Z4).
  repeat split.
Qed.

Lemma htonl_ntohl_round_trip_witness :
  l_ntohl esp32 (l_htonl esp32 0xE8FE6F80) = 0xE8FE6F80
  /\ l_htonl esp32 0xE8FE6F80 = 0x806FFEE8.
Proof.
  assert (Hv : is_u32 0xE8FE6F80) by (unfold is_u32; lia).
  destruct (htonl_ntohl_round_trip esp32 0xE8FE6F80 Hv) as (E & _).
  split; [exact E | reflexivity].
Defined.

(** ** The exchange does not depend on the byte order of the host *)

Section Endianness.

Context {U : Type} `{UDPAPI U}.

Lemma ntpExchange_send_any_host (a b : Platform) (tx_s : Z)
    (c : TinyNTPClient) (w : World U) :
  ntpExchange_send a tx_s c w = ntpExchange_send b tx_s c w.
Proof.
  unfold ntpExchange_send. rewrite !packet_bytes_request. reflexivity.
Qed.

Lemma ntpExchange_update_any_host (a b : Platform) (tx_s t3_millis : Z)
    (buffer : list Z) (c : TinyNTPClient) (w : World U) :
  long_width a = long_width b ->
  Forall is_byte buffer ->
  ntpExchange_update a tx_s t3_millis (packet_of_bytes a buffer) c w
  = ntpExchange_update b tx_s t3_millis (packet_of_bytes b buffer) c w.
Proof.
  intros Hlw Hb. unfold ntpExchange_update, packet_of_bytes, ntp_offset.
  cbn [origTm_s rxTm_s txTm_s].
  destruct (response_field a buffer 24 Hb) as [A1 _].
  destruct (response_field a buffer 32 Hb) as [A2 _].
  destruct (response_field a buffer 40 Hb) as [A3 _].
  destruct (response_field b buffer 24 Hb) as [B1 _].
  destruct (response_field b buffer 32 Hb) as [B2 _].
  destruct (response_field b buffer 40 Hb) as [B3 _].
  rewrite A1, A2, A3, B1, B2, B3, Hlw. reflexivity.
Qed.

Lemma ntpExchange_read_any_host (a b : Platform) (tx_s : Z)
    (c : TinyNTPClient) (packetSize : Z) (w : World U) :
  long_width a = long_width b ->
  ntpExchange_read a tx_s c packetSize w
  = ntpExchange_read b tx_s c packetSize w.
Proof.
  intros Hlw. unfold ntpExchange_read.
  destruct (millis w) as [t3_millis w1].
  destruct (packetSize <? sizeof_NTPPacket); [reflexivity |].
  pose proof (ntpExchange_readLoop_buffer 0
                (repeat 0 (Z.to_nat sizeof_NTPPacket)) (udp w1)
                (zero_buffer_bytes _)) as [Hbytes _].
  destruct (ntpExchange_readLoop _ _ _) as [[totalRead buffer'] u1].
  cbn [fst snd] in Hbytes.
  destruct (totalRead <? sizeof_NTPPacket); [reflexivity |].
  apply ntpExchange_update_any_host; assumption.
Qed.

Lemma ntpExchange_any_host (a b : Platform) (fuel : nat) (tx_s : Z)
    (c : TinyNTPClient) (w : World U) :
  long_width a = long_width b ->
  ntpExchange a fuel tx_s c w = ntpExchange b fuel tx_s c w.
Proof.
  intros Hlw. unfold ntpExchange.
  rewrite (ntpExchange_send_any_host a b).
  destruct (millis _) as [now w2].
  destruct (ntpExchange_wait _ _ _) as [[[packetSize |] w3] |];
    try reflexivity.
  rewrite (ntpExchange_read_any_host a b) by exact Hlw. reflexivity.
Qed.

(** X4. Byte order is handled on both kinds of host: an exchange, and
    with it [update] and [begin], gives the same result, sends the same
    bytes and leaves the same world on a big-endian host as on a
    little-endian one with the same width of [long], for every
    transport, clock, client and transmit seconds. *)
Theorem exchange_endian_independent (lw : LongWidth) (fuel : nat)
    (tx_s : Z) (c : TinyNTPClient) (w : World U) :
  let le := mkPlatform true lw in
  let be := mkPlatform false lw in
  ntpExchange le fuel tx_s c w = ntpExchange be fuel tx_s c w
  /\ update le fuel c w = update be fuel c w
  /\ begin le fuel c w = begin be fuel c w.
Proof.
  cbv zeta.
  assert (Hu : forall c0 (w0 : World U),
             update (mkPlatform true lw) fuel c0 w0
             = update (mkPlatform false lw) fuel c0 w0).
  { intros c0 w0. unfold update, updateWithoutRTC, updateWithRTC.
    destruct (_lastUpdateMillis c0 =? 0).
    - rewrite (ntpExchange_any_host (mkPlatform true lw)
                 (mkPlatform false lw)) by reflexivity.
      destruct (ntpExchange _ fuel 0 c0 w0) as [[[[|] c1] w1] |];
        try reflexivity.
      destruct (getTimeSec c1 w1) as [t0 w2].
      apply ntpExchange_any_host. reflexivity.
    - destruct (getTimeSec c0 w0) as [t0 w2].
      apply ntpExchange_any_host. reflexivity. }
  split; [apply ntpExchange_any_host; reflexivity |].
  split; [apply Hu |].
  unfold begin. destruct (end_ c w) as [c1 w1]. apply Hu.
Qed.

End Endianness.

(** ** More on the time base *)

Section TimeQueries.

Context {U : Type}.

Lemma getTimeSec_value (c : TinyNTPClient) (w : World U) :
  fst (getTimeSec c w) = u32 (fst (getTimeMs c w) / 1000)
  /\ snd (getTimeSec c w) = snd (getTimeMs c w).
Proof.
  unfold getTimeSec. destruct (getTimeMs c w) as [ms w1]. split; reflexivity.
Qed.

(** X5. [getTimeSec] is the anchor's seconds plus the configured offset
    plus the whole seconds elapsed since the anchor, as a [uint32_t]
    (whenever the millisecond sum is representable); it is 0 without an
    anchor, and like [getTimeMs] it reads the counter once and touches
    nothing else. *)
Theorem getTimeSec_seconds (c : TinyNTPClient) (w : World U) :
  let elapsed := ms_since_update (fst (millis w)) (_lastUpdateMillis c) in
  (operator_bool c = true ->
   0 <= _lastNtpTime c * 1000 + elapsed + _timeOffsetSeconds c * 1000
     < 2 ^ 64 ->
   fst (getTimeSec c w)
   = u32 (_lastNtpTime c + _timeOffsetSeconds c + elapsed / 1000))
  /\ (operator_bool c = false -> getTimeSec c w = (0, w))
  /\ snd (getTimeSec c w) = snd (getTimeMs c w).
Proof.
  cbv zeta. destruct (getTimeSec_value c w) as [Ev Ew].
  split; [| split; [| exact Ew]].
  - intros Hb Hsum. rewrite Ev, getTimeMs_value.
    unfold operator_bool in Hb.
    destruct (_lastUpdateMillis c =? 0); [discriminate |].
    rewrite u64_small by exact Hsum.
    replace (_lastNtpTime c * 1000
             + ms_since_update (fst (millis w)) (_lastUpdateMillis c)
             + _timeOffsetSeconds c * 1000)
      with ((_lastNtpTime c + _timeOffsetSeconds c) * 1000
            + ms_since_update (fst (millis w)) (_lastUpdateMillis c))
      by lia.
    rewrite Z.div_add_l by lia. reflexivity.
  - intros Hb. apply getTimeSec_no_anchor.
    unfold operator_bool in Hb.
    destruct (_lastUpdateMillis c =? 0) eqn:E; [| discriminate].
    apply Z.eqb_eq. exact E.
Qed.

Lemma elapsed_mod (ref e : Z) :
  ms_since_update (u32 (ref + e)) ref = e mod 2 ^ 32.
Proof.
  unfold ms_since_update, u32. rewrite Zminus_mod_idemp_l.
  replace (ref + e - ref) with e by lia. reflexivity.
Qed.

(** X6. The time since the anchor is counted modulo 2^32 ms: when [e]
    milliseconds have passed since the anchor was taken, however many,
    [getTimeMs] adds [e mod 2^32], so 2^32 ms (49.7 days) after a query
    it returns the same value again. *)
Theorem elapsed_counts_modulo (c : TinyNTPClient) (w w' : World U) (e : Z) :
  _lastUpdateMillis c <> 0 ->
  fst (millis w) = u32 (_lastUpdateMillis c + e) ->
  fst (millis w') = u32 (_lastUpdateMillis c + (e + 2 ^ 32)) ->
  fst (getTimeMs c w)
  = u64 (_lastNtpTime c * 1000 + e mod 2 ^ 32 + _timeOffsetSeconds c * 1000)
  /\ fst (getTimeMs c w') = fst (getTimeMs c w).
Proof.
  intros Hnz Hw Hw'. rewrite !getTimeMs_value.
  destruct (_lastUpdateMillis c =? 0) eqn:E; [apply Z.eqb_eq in E; lia |].
  rewrite Hw, Hw', !elapsed_mod.
  replace ((e + 2 ^ 32) mod 2 ^ 32) with (e mod 2 ^ 32)
    by (rewrite <- (Z.mul_1_l (2 ^ 32)) at 2;
        rewrite Z.mod_add by lia; reflexivity).
  split; reflexivity.
Qed.

(** X7. Between two queries on the same anchor, [e1] and [e2]
    milliseconds after it was taken with [e1 <= e2 < 2^32], the time
    returned advances by exactly [e2 - e1] (the values being
    representable): within that span the clock runs forward at the rate
    of the millisecond counter. *)
Theorem time_advances (c : TinyNTPClient) (w1 w2 : World U) (e1 e2 : Z) :
  _lastUpdateMillis c <> 0 ->
  0 <= e1 <= e2 -> e2 < 2 ^ 32 ->
  fst (millis w1) = u32 (_lastUpdateMillis c + e1) ->
  fst (millis w2) = u32 (_lastUpdateMillis c + e2) ->
  0 <= _lastNtpTime c * 1000 + _timeOffsetSeconds c * 1000 ->
  _lastNtpTime c * 1000 + e2 + _timeOffsetSeconds c * 1000 < 2 ^ 64 ->
  fst (getTimeMs c w2) - fst (getTimeMs c w1) = e2 - e1
  /\ fst (getTimeMs c w1) <= fst (getTimeMs c w2).
Proof.
  intros Hnz He1 He2 Hw1 Hw2 Hlo Hhi. rewrite !getTimeMs_value.
  destruct (_lastUpdateMillis c =? 0) eqn:E; [apply Z.eqb_eq in E; lia |].
  rewrite Hw1, Hw2, !elapsed_mod.
  rewrite (Z.mod_small e1), (Z.mod_small e2) by lia.
  rewrite !u64_small by lia. lia.
Qed.

(** X8. The configured offset shifts the time by [offset * 1000] ms (in
    [uint64_t]) once there is an anchor, and has no effect before:
    without an anchor [getTimeMs] is 0 whatever the offset.  Setting the
    offset does not touch the anchor, and the last value set is the one
    in force. *)
Theorem offset_shifts_time (v v' : Z) (c : TinyNTPClient) (w : World U) :
  fst (getTimeMs (setTimeOffsetSeconds v c) w)
  = (if operator_bool c
     then u64 (fst (getTimeMs (setTimeOffsetSeconds 0 c) w) + v * 1000)
     else 0)
  /\ operator_bool (setTimeOffsetSeconds v c) = operator_bool c
  /\ _lastNtpTime (setTimeOffsetSeconds v c) = _lastNtpTime c
  /\ _lastUpdateMillis (setTimeOffsetSeconds v c) = _lastUpdateMillis c
  /\ setTimeOffsetSeconds v' (setTimeOffsetSeconds v c)
     = setTimeOffsetSeconds v' c.
Proof.
  split; [| repeat split].
  rewrite !getTimeMs_value. unfold operator_bool.
  cbn [setTimeOffsetSeconds set_timeOffsetSeconds _lastUpdateMillis
       _lastNtpTime _timeOffsetSeconds].
  destruct (_lastUpdateMillis c =? 0); [reflexivity |]. cbn [negb].
  unfold u64. rewrite Z.add_mod_idemp_l by lia.
  f_equal. lia.
Qed.

End TimeQueries.

(** X9. [setTimeOffsetHours] stores [hours * 3600], computed in [long]:
    for up to 596523 hours either way that is the offset in seconds on
    every host; on a host with a 32-bit [long] one hour more overflows
    and the stored offset is negative. *)
Theorem setTimeOffsetHours_seconds (host : Platform) (hours : Z)
    (c : TinyNTPClient) :
  - 596523 <= hours <= 596523 ->
  setTimeOffsetHours host hours c = setTimeOffsetSeconds (hours * 3600) c
  /\ _timeOffsetSeconds (setTimeOffsetHours host hours c) = hours * 3600
  /\ _timeOffsetSeconds (setTimeOffsetHours esp32 596524 c)
     = 596524 * 3600 - 2 ^ 32.
Proof.
  intros Hh. unfold setTimeOffsetHours, setTimeOffsetSeconds.
  assert (E : to_long (long_width host) (hours * 3600) = hours * 3600).
  { apply to_long_small. destruct (long_width host); simpl long_bits.
    - change (2 ^ (32 - 1)) with 2147483648. lia.
    - change (2 ^ (64 - 1)) with 9223372036854775808. lia. }
  rewrite E. repeat split.
Qed.

Lemma getTimeSec_seconds_witness :
  fst (getTimeSec (mkClient "pool.ntp.org"%string 123 3600 1700000000 100 6000)
                  (running_world 2350 silent))
  = 1700000000 + 3600 + 2.
Proof.
  destruct (getTimeSec_seconds
              (mkClient "pool.ntp.org"%string 123 3600 1700000000 100 6000)
              (running_world 2350 silent)) as (Hsec & _).
  rewrite Hsec; [reflexivity | reflexivity |].
  vm_compute. split; [discriminate | reflexivity].
Defined.

Lemma elapsed_counts_modulo_witness :
  fst (getTimeMs synced_client (running_world (5 + 7 + 2 ^ 32) silent))
  = fst (getTimeMs synced_client (running_world (5 + 7) silent)).
Proof.
  destruct (elapsed_counts_modulo synced_client
              (running_world (5 + 7) silent)
              (running_world (5 + 7 + 2 ^ 32) silent) 7) as (_ & E).
  - discriminate.
  - reflexivity.
  - reflexivity.
  - exact E.
Defined.

Lemma time_advances_witness :
  fst (getTimeMs synced_client (running_world 4005 silent))
  - fst (getTimeMs synced_client (running_world 1005 silent)) = 3000.
Proof.
  destruct (time_advances synced_client (running_world 1005 silent)
              (running_world 4005 silent) 1000 4000) as (E & _).
  - discriminate.
  - lia.
  - lia.
  - reflexivity.
  - reflexivity.
  - vm_compute. discriminate.
  - vm_compute. reflexivity.
  - exact E.
Defined.

Lemma setTimeOffsetHours_seconds_witness :
  _timeOffsetSeconds (setTimeOffsetHours esp32 (-5) default_client) = -18000.
Proof.
  destruct (setTimeOffsetHours_seconds esp32 (-5) default_client) as (_ & E & _).
  - lia.
  - exact E.
Defined.

(** ** More on the exchange and on [update] and [begin] *)

Section ExchangeMore.

Variable host : Platform.
Context {U : Type} `{UDPAPI U}.

Lemma ntpExchange_read_bootstrap (c : TinyNTPClient) (packetSize : Z)
    (w : World U) :
  let w1 := snd (millis w) in
  let reply :=
    ntpExchange_readLoop 0 (repeat 0 (Z.to_nat sizeof_NTPPacket)) (udp w1) in
  fst (fst (ntpExchange_read host 0 c packetSize w)) = true ->
  ntpExchange_read host 0 c packetSize w
  = (true,
     set_anchor c
       (u32 (be_value (word_at (snd (fst reply)) 40) - NTP_EPOCH_DELTA))
       (fst (millis w)),
     set_udp w1 (snd reply)).
Proof.
  cbv zeta. unfold ntpExchange_read, millis. cbn [fst snd udp].
  pose proof (ntpExchange_readLoop_buffer 0
                (repeat 0 (Z.to_nat sizeof_NTPPacket)) (udp w)
                (zero_buffer_bytes _)) as [Hbytes _].
  destruct (ntpExchange_readLoop 0 (repeat 0 (Z.to_nat sizeof_NTPPacket))
              (udp w)) as [[totalRead buffer'] u1].
  cbn [fst snd] in *.
  destruct (response_field host buffer' 40 Hbytes) as [E3 _].
  destruct (packetSize <? sizeof_NTPPacket).
  - destruct (udp_read packetSize (udp w)) as [[r d] u2].
    cbn [fst snd]. discriminate.
  - destruct (totalRead <? sizeof_NTPPacket); [cbn [fst snd]; discriminate |].
    intros _. unfold ntpExchange_update. cbn [Z.eqb negb].
    unfold packet_of_bytes. cbn [txTm_s]. rewrite E3. reflexivity.
Qed.

(** X10. An exchange with transmit seconds 0 that succeeds stores the
    transmit seconds of the reply minus 2208988800 (as a [uint32_t])
    together with the tick read when the reply was reported; the
    originate and receive fields, the client's previous anchor and its
    own idea of the time play no part, and the counter is not read
    again.  A query [e] ms after a non-zero arrival tick then returns
    that time plus [e] (plus the configured offset). *)
Theorem bootstrap_exchange_anchor (fuel : nat) (c : TinyNTPClient)
    (w : World U) c' w' :
  ntpExchange host fuel 0 c w = Some (true, c', w') ->
  exists packetSize w3,
    ntpExchange_wait fuel (deadline host 0 c w) (wait_start host 0 c w)
    = Some (Some packetSize, w3)
    /\ let w4 := snd (millis w3) in
       let reply :=
         ntpExchange_readLoop 0 (repeat 0 (Z.to_nat sizeof_NTPPacket))
                              (udp w4) in
       let T3 := be_value (word_at (snd (fst reply)) 40) in
       c' = set_anchor c (u32 (T3 - NTP_EPOCH_DELTA)) (fst (millis w3))
       /\ w' = set_udp w4 (snd reply)
       /\ (forall (wq : World U) (e : Z),
             fst (millis w3) <> 0 ->
             0 <= e < 2 ^ 32 ->
             fst (millis wq) = u32 (fst (millis w3) + e) ->
             fst (getTimeMs c' wq)
             = u64 (u32 (T3 - NTP_EPOCH_DELTA) * 1000 + e
                    + _timeOffsetSeconds c * 1000)).
Proof.
  intros E. rewrite ntpExchange_unfold in E.
  destruct (ntpExchange_wait _ _ _) as [[[packetSize |] w3] |];
    [| discriminate E | discriminate E].
  injection E as E. exists packetSize, w3. split; [reflexivity |].
  assert (Hok : fst (fst (ntpExchange_read host 0 c packetSize w3)) = true)
    by (rewrite E; reflexivity).
  pose proof (ntpExchange_read_bootstrap c packetSize w3 Hok) as R.
  cbv zeta in R. rewrite E in R.
  pose proof (f_equal (fun r => snd (fst r)) R) as Ec.
  pose proof (f_equal snd R) as Ew. cbn [fst snd] in Ec, Ew.
  cbv zeta. split; [exact Ec |]. split; [exact Ew |].
  intros wq e Hnz He Hq. rewrite getTimeMs_value, Ec.
  cbn [set_anchor _lastUpdateMillis _lastNtpTime _timeOffsetSeconds].
  destruct (fst (millis w3) =? 0) eqn:Ez; [apply Z.eqb_eq in Ez; lia |].
  rewrite Hq, elapsed_mod, (Z.mod_small e) by lia. reflexivity.
Qed.

Lemma set_anchor_twice (c : TinyNTPClient) (a b a' b' : Z) :
  set_anchor (set_anchor c a b) a' b' = set_anchor c a' b'.
Proof. reflexivity. Qed.

Lemma set_anchor_same (c : TinyNTPClient) :
  set_anchor c (_lastNtpTime c) (_lastUpdateMillis c) = c.
Proof. destruct c. reflexivity. Qed.

Lemma ntpExchange_only_anchor (fuel : nat) (tx_s : Z) (c : TinyNTPClient)
    (w : World U) ok c' w' :
  ntpExchange host fuel tx_s c w = Some (ok, c', w') ->
  c' = set_anchor c (_lastNtpTime c') (_lastUpdateMillis c').
Proof.
  intros E. apply ntpExchange_inv in E.
  destruct E as [(_ & ->) | (_ & ntpTime & t3 & ->)].
  - symmetry. apply set_anchor_same.
  - reflexivity.
Qed.

Lemma update_only_anchor (fuel : nat) (c : TinyNTPClient) (w : World U)
    ok c' w' :
  update host fuel c w = Some (ok, c', w') ->
  c' = set_anchor c (_lastNtpTime c') (_lastUpdateMillis c').
Proof.
  unfold update, updateWithoutRTC.
  destruct (_lastUpdateMillis c =? 0).
  - destruct (ntpExchange host fuel 0 c w) as [[[[|] c1] w1] |] eqn:E1;
      [| | discriminate].
    + rewrite updateWithRTC_unfold. intros E2.
      apply ntpExchange_only_anchor in E1.
      apply ntpExchange_only_anchor in E2.
      rewrite E2, E1. reflexivity.
    + intros E2. injection E2 as <- <- <-.
      apply ntpExchange_only_anchor in E1. exact E1.
  - rewrite updateWithRTC_unfold. apply ntpExchange_only_anchor.
Qed.

(** X11. [update] writes nothing but the anchor: whatever its outcome,
    the server, the port, the time-out and the configured offset of the
    client it returns are those it was called with.  [begin] keeps the
    server, the port and the time-out. *)
Theorem update_keeps_configuration (fuel : nat) (c : TinyNTPClient)
    (w : World U) :
  (forall ok c' w',
      update host fuel c w = Some (ok, c', w') ->
      _server c' = _server c /\ _port c' = _port c
      /\ _timeoutMs c' = _timeoutMs c
      /\ _timeOffsetSeconds c' = _timeOffsetSeconds c)
  /\ (forall ok c' w',
        begin host fuel c w = Some (ok, c', w') ->
        _server c' = _server c /\ _port c' = _port c
        /\ _timeoutMs c' = _timeoutMs c).
Proof.
  split.
  - intros ok c' w' E. apply update_only_anchor in E. rewrite E.
    repeat split.
  - intros ok c' w' E. unfold begin in E. cbn [end_] in E.
    apply update_only_anchor in E. rewrite E. repeat split.
Qed.

(** X12. [begin] starts from nothing: it always runs the exchange with
    transmit seconds 0 first, on the client as [end] leaves it.  If that
    exchange fails, [begin] fails and the client it returns has no
    anchor and offset 0, also when the client was synchronized before
    the call; a failed [update] would have kept the anchor. *)
Theorem begin_restarts (fuel : nat) (c : TinyNTPClient) (w : World U) :
  let c0 := fst (end_ c w) in
  let w0 := snd (end_ c w) in
  begin host fuel c w
  = match ntpExchange host fuel 0 c0 w0 with
    | None => None
    | Some (false, c1, w1) => Some (false, c1, w1)
    | Some (true, c1, w1) => updateWithRTC host fuel c1 w1
    end
  /\ (forall c1 w1,
        ntpExchange host fuel 0 c0 w0 = Some (false, c1, w1) ->
        begin host fuel c w = Some (false, c0, w1)
        /\ operator_bool c0 = false
        /\ _timeOffsetSeconds c0 = 0
        /\ (forall wq : World U, fst (getTimeMs c0 wq) = 0)).
Proof.
  cbv zeta.
  assert (Eb : begin host fuel c w
               = match ntpExchange host fuel 0 (fst (end_ c w))
                                    (snd (end_ c w)) with
                 | None => None
                 | Some (false, c1, w1) => Some (false, c1, w1)
                 | Some (true, c1, w1) => updateWithRTC host fuel c1 w1
                 end) by reflexivity.
  split; [exact Eb |].
  intros c1 w1 E. rewrite Eb, E.
  apply ntpExchange_inv in E. destruct E as [(_ & ->) | (D & _)];
    [| discriminate].
  repeat split.
Qed.

End ExchangeMore.

Lemma bootstrap_exchange_anchor_witness :
  match ntpExchange esp32 10 0 synced_client
                    (running_world 100 (incoming [server_reply])) with
  | Some (true, c', _) =>
      _lastNtpTime c' = 1700000000 /\ _lastUpdateMillis c' = 101
  | _ => False
  end.
Proof.
  destruct (ntpExchange esp32 10 0 synced_client
                        (running_world 100 (incoming [server_reply])))
    as [[[[|] c'] w'] |] eqn:E.
  - destruct (bootstrap_exchange_anchor _ _ _ _ _ _ E)
      as (packetSize & w3 & Ew & Ec & _).
    vm_compute in Ew. injection Ew as <- <-.
    rewrite Ec. vm_compute. split; reflexivity.
  - wrong_run E.
  - wrong_run E.
Defined.

Lemma update_keeps_configuration_witness :
  match update esp32 100 (setTimeOffsetSeconds 7200 impatient_client)
               (running_world 100 silent) with
  | Some (false, c', _) =>
      _timeOffsetSeconds c' = 7200 /\ _timeoutMs c' = 50
  | _ => False
  end.
Proof.
  destruct (update esp32 100 (setTimeOffsetSeconds 7200 impatient_client)
                   (running_world 100 silent))
    as [[[[|] c'] w'] |] eqn:E.
  - wrong_run E.
  - destruct (update_keeps_configuration esp32 100
                (setTimeOffsetSeconds 7200 impatient_client)
                (running_world 100 silent)) as (Hu & _).
    destruct (Hu _ _ _ E) as (_ & _ & Et & Eo).
    split; [exact Eo | exact Et].
  - wrong_run E.
Defined.

Lemma begin_restarts_witness :
  operator_bool synced_impatient_client = true
  /\ match begin esp32 100 synced_impatient_client
                 (running_world 100 silent) with
     | Some (false, c', _) =>
         operator_bool c' = false /\ _timeOffsetSeconds c' = 0
     | _ => False
     end.
Proof.
  split; [reflexivity |].
  destruct (begin_restarts esp32 100 synced_impatient_client
                           (running_world 100 silent)) as (_ & Hf).
  destruct (ntpExchange esp32 100 0
              (fst (end_ synced_impatient_client (running_world 100 silent)))
              (snd (end_ synced_impatient_client (running_world 100 silent))))
    as [[[[|] c1] w1] |] eqn:E.
  - wrong_run E.
  - destruct (Hf c1 w1 eq_refl) as (Eb & Eo & Ez & _).
    rewrite Eb. split; [exact Eo | exact Ez].
  - wrong_run E.
Defined.

(** ** More on the two loops *)

Section WaitMore.

Variable host : Platform.
Context {U : Type} `{UDPAPI U}.

(** X13. The wait loop returns the first non-zero result of
    [parsePacket], positive or negative, provided no reading of the
    counter taken while polling was above the deadline: if the first [n]
    polls return 0 with readings up to [timeout_ms] and the next poll
    returns [packetSize], the loop ends with [packetSize] after [n]
    readings of the counter, with nothing written to the serial
    output. *)
Theorem ntpExchange_wait_arrival (timeout_ms packetSize : Z) (n : nat) :
  forall (w : World U) (fuel : nat),
    (forall k, (k < n)%nat ->
               fst (udp_parsePacket (poll_state k (udp w))) = 0) ->
    fst (udp_parsePacket (poll_state n (udp w))) = packetSize ->
    packetSize <> 0 ->
    (forall k, (k < n)%nat ->
               u32 (clock w (clock_reads w + k)) <= timeout_ms) ->
    (n < fuel)%nat ->
    ntpExchange_wait fuel timeout_ms w
    = Some (Some packetSize,
            mkWorld (clock w) (clock_reads w + n)
                    (snd (udp_parsePacket (poll_state n (udp w))))
                    (serial w)).
Proof.
  induction n as [| n IH]; intros w fuel Hzero Hps Hnz Hclock Hfuel;
    (destruct fuel as [| fuel]; [lia |]); cbn [ntpExchange_wait].
  - cbn [poll_state] in Hps |- *.
    destruct (udp_parsePacket (udp w)) as [ps u1]. cbn [fst snd] in *.
    subst ps. apply Z.eqb_neq in Hnz. rewrite Hnz.
    unfold set_udp. rewrite Nat.add_0_r. reflexivity.
  - assert (H0 := Hzero O (Nat.lt_0_succ n)). cbn [poll_state] in H0, Hps |- *.
    assert (C0 := Hclock O (Nat.lt_0_succ n)). rewrite Nat.add_0_r in C0.
    destruct (udp_parsePacket (udp w)) as [ps u1] eqn:Ep.
    cbn [fst snd] in *. subst ps. cbn [Z.eqb].
    unfold millis, set_udp. cbn [clock clock_reads udp serial].
    assert (Hnow : (u32 (clock w (clock_reads w)) >? timeout_ms) = false)
      by (rewrite Z.gtb_ltb; apply Z.ltb_ge; exact C0).
    rewrite Hnow.
    rewrite (IH (mkWorld (clock w) (S (clock_reads w)) u1 (serial w)) fuel).
    + cbn [clock clock_reads udp serial].
      rewrite Nat.add_succ_r. reflexivity.
    + intros k Hk. cbn [udp]. apply Nat.succ_lt_mono in Hk.
      assert (Hz := Hzero (S k) Hk). cbn [poll_state] in Hz.
      rewrite Ep in Hz. exact Hz.
    + exact Hps.
    + exact Hnz.
    + intros k Hk. cbn [clock clock_reads]. apply Nat.succ_lt_mono in Hk.
      assert (Hc := Hclock (S k) Hk). rewrite Nat.add_succ_r in Hc. exact Hc.
    + lia.
Qed.

End WaitMore.

Lemma ntpExchange_wait_arrival_witness :
  ntpExchange_wait 10 6100
    (running_world 101 (mkMock 3 [server_reply] [] 48 []))
  = Some (Some 48,
          mkWorld (running_clock 101) 3 (arrived server_reply) []).
Proof.
  rewrite (ntpExchange_wait_arrival 6100 48 3
             (running_world 101 (mkMock 3 [server_reply] [] 48 [])) 10).
  - reflexivity.
  - intros k Hk.
    destruct k as [| [| [| k]]]; [reflexivity | reflexivity | reflexivity | lia].
  - reflexivity.
  - discriminate.
  - intros k Hk.
    destruct k as [| [| [| k]]]; vm_compute; try discriminate; lia.
  - lia.
Defined.

Lemma ntpExchange_times_out_witness :
  exists w',
    ntpExchange esp32 100 0 impatient_client (running_world 100 silent)
    = Some (false, impatient_client, w')
    /\ clock_reads w' = 52%nat.
Proof.
  apply (ntpExchange_times_out esp32 mock_silent mock_silent_never_reports
           0 impatient_client (running_world 100 silent) 50 100).
  - split; reflexivity.
  - vm_compute. reflexivity.
  - vm_compute. discriminate.
  - intros k Hk. unfold wait_start, millis, running_world, running_clock, u32.
    cbn [fst snd clock clock_reads ntpExchange_send set_udp impatient_client
         new_client _timeoutMs].
    rewrite Z.mod_small by lia.
    rewrite Z.mod_small by lia. lia.
  - vm_compute. reflexivity.
  - lia.
Defined.

(** ** More on the read loop *)

Lemma skipn_zeros (d r : nat) : skipn d (repeat 0 r) = repeat 0 (r - d).
Proof.
  revert r. induction d as [| d IH]; intros r; simpl.
  - rewrite Nat.sub_0_r. reflexivity.
  - destruct r as [| r]; simpl; [reflexivity | apply IH].
Qed.

Lemma firstn_plus {A : Type} (a b : nat) (l : list A) :
  firstn (a + b) l = firstn a l ++ firstn b (skipn a l).
Proof.
  revert l. induction a as [| a IH]; intros l; simpl; [reflexivity |].
  destruct l as [| x l]; simpl.
  - destruct b; reflexivity.
  - f_equal. apply IH.
Qed.

(** Storing [data] right behind the part of the buffer that is filled. *)
Lemma store_at_append (filled data : list Z) (r : nat) (off : Z) :
  off = Z.of_nat (length filled) ->
  (length data <= r)%nat ->
  store_at (filled ++ repeat 0 r) off data
  = (filled ++ map (fun b => b mod 256) data) ++ repeat 0 (r - length data).
Proof.
  intros -> Hd. unfold store_at. rewrite Nat2Z.id.
  rewrite (firstn_app (length filled) filled), firstn_all, Nat.sub_diag.
  cbn [firstn]. rewrite app_nil_r.
  rewrite (skipn_app _ filled), skipn_all2 by lia. cbn [app].
  replace (length filled + length data - length filled)%nat
    with (length data) by lia.
  rewrite skipn_zeros, <- app_assoc. reflexivity.
Qed.

(** One [read] of the scripted transport while a response is being
    collected from the datagram [bs], of which [k] bytes are in. *)
Lemma mock_read_chunk (u : MockUDP) (k : nat) (bs : list Z) :
  mock_current u = skipn k bs -> (k < 48)%nat -> (48 <= length bs)%nat ->
  1 <= mock_chunk u ->
  let n := Z.to_nat (Z.min (48 - Z.of_nat k) (mock_chunk u)) in
  (1 <= n <= 48 - k)%nat
  /\ mock_read (48 - Z.of_nat k) u
     = (Z.of_nat n, firstn n (skipn k bs),
        mkMock (mock_delay u) (mock_inbox u) (skipn (k + n) bs)
               (mock_chunk u) (mock_sent u)).
Proof.
  intros Hcur Hk Hlen Hchunk n.
  assert (Hn : (1 <= n <= 48 - k)%nat) by (unfold n; lia).
  split; [exact Hn |].
  assert (Hl : length (skipn k bs) = (length bs - k)%nat)
    by apply length_skipn.
  unfold mock_read. fold n.
  destruct (mock_current u) as [| b rest] eqn:Ecur.
  - rewrite <- Hcur in Hl. cbn [length] in Hl. lia.
  - rewrite Hcur. rewrite length_firstn, Hl, Nat.min_l by lia.
    rewrite skipn_skipn, (Nat.add_comm n k). reflexivity.
Qed.

Lemma mock_reassembles :
  forall (totalRead : Z) (buffer : list Z) (u : MockUDP) (k : nat)
         (bs : list Z),
    totalRead = Z.of_nat k -> (k <= 48)%nat -> (48 <= length bs)%nat ->
    1 <= mock_chunk u ->
    mock_current u = skipn k bs ->
    buffer = map (fun b => b mod 256) (firstn k bs) ++ repeat 0 (48 - k) ->
    let r := ntpExchange_readLoop totalRead buffer u in
    fst (fst r) = 48
    /\ snd (fst r) = map (fun b => b mod 256) (firstn 48 bs)
    /\ snd r = mkMock (mock_delay u) (mock_inbox u) (skipn 48 bs)
                      (mock_chunk u) (mock_sent u).
Proof.
  intros totalRead buffer u.
  funelim (ntpExchange_readLoop totalRead buffer u);
    intros k bs Hk Hk48 Hlen Hchunk Hcur Hbuf; cbv zeta;
    unfold sizeof_NTPPacket in *.
  - assert (k = 48%nat) by lia. subst k totalRead buffer.
    cbn [fst snd]. rewrite Nat.sub_diag. cbn [repeat]. rewrite app_nil_r.
    split; [reflexivity |]. split; [reflexivity |].
    rewrite <- Hcur. destruct u; reflexivity.
  - exfalso.
    assert (L := length_skipn k bs). rewrite <- Hcur in L. lia.
  - subst totalRead.
    destruct (mock_read_chunk u k bs Hcur ltac:(lia) Hlen Hchunk)
      as (Hn & Er).
    match goal with
    | E : _ = (bytesRead, data, u2) |- _ =>
        change (mock_read (48 - Z.of_nat k) u = (bytesRead, data, u2)) in E;
        rewrite Er in E;
        pose proof (f_equal (fun r => fst (fst r)) E) as Eb;
        pose proof (f_equal (fun r => snd (fst r)) E) as Ed;
        pose proof (f_equal snd E) as Eu2;
        cbn [fst snd] in Eb, Ed, Eu2; clear E
    end.
    set (m := Z.to_nat (Z.min (48 - Z.of_nat k) (mock_chunk u))) in *.
    match goal with
    | IH : forall (k0 : nat) (bs0 : list Z), _ |- _ =>
        destruct (IH (k + m)%nat bs) as (R1 & R2 & R3)
    end.
    + subst bytesRead. lia.
    + lia.
    + exact Hlen.
    + subst u2. exact Hchunk.
    + subst u2. reflexivity.
    + subst buffer data.
      assert (Hf : length (map (fun b => b mod 256) (firstn k bs)) = k)
        by (rewrite length_map, length_firstn; lia).
      rewrite store_at_append.
      * rewrite <- map_app, <- firstn_plus.
        rewrite length_firstn, length_skipn, Nat.min_l by lia.
        f_equal. f_equal. lia.
      * rewrite Hf. reflexivity.
      * rewrite length_firstn, length_skipn. lia.
    + split; [exact R1 |]. split; [exact R2 |].
      rewrite R3. subst u2. reflexivity.
  - exfalso. subst totalRead.
    destruct (mock_read_chunk u k bs Hcur ltac:(lia) Hlen Hchunk)
      as (Hn & Er).
    match goal with
    | E : _ = (bytesRead, data, u2) |- _ =>
        change (mock_read (48 - Z.of_nat k) u = (bytesRead, data, u2)) in E;
        rewrite Er in E;
        pose proof (f_equal (fun r => fst (fst r)) E) as Eb;
        pose proof (f_equal (fun r => snd (fst r)) E) as Ed;
        pose proof (f_equal snd E) as Eu2;
        cbn [fst snd] in Eb, Ed, Eu2; clear E
    end.
    lia.
Qed.

(** X15. Partial reads reassemble the datagram.  On the scripted
    transport holding a datagram of at least 48 bytes and delivering at
    least one byte per [read], whatever the size of the pieces, the read
    loop ends with exactly 48 bytes read, the buffer holds the first 48
    bytes of the datagram in order, and the rest of a longer datagram is
    left unread. *)
Theorem partial_reads_reassemble (u : MockUDP) :
  (48 <= length (mock_current u))%nat ->
  1 <= mock_chunk u ->
  let r := ntpExchange_readLoop 0 (repeat 0 (Z.to_nat sizeof_NTPPacket)) u in
  fst (fst r) = 48
  /\ snd (fst r) = map (fun b => b mod 256) (firstn 48 (mock_current u))
  /\ mock_current (snd r) = skipn 48 (mock_current u)
  /\ mock_inbox (snd r) = mock_inbox u.
Proof.
  intros Hlen Hchunk.
  destruct (mock_reassembles 0 (repeat 0 (Z.to_nat sizeof_NTPPacket)) u O
              (mock_current u)) as (R1 & R2 & R3);
    try reflexivity; try assumption; try lia.
  cbv zeta. rewrite R1, R2, R3. repeat split.
Qed.

Lemma partial_reads_reassemble_witness :
  snd (fst (ntpExchange_readLoop 0 (repeat 0 (Z.to_nat sizeof_NTPPacket))
              (mkMock 0 [] (server_reply ++ [1; 2; 3]) 7 [])))
  = server_reply.
Proof.
  destruct (partial_reads_reassemble
              (mkMock 0 [] (server_reply ++ [1; 2; 3]) 7 []))
    as (_ & E & _).
  - vm_compute. lia.
  - vm_compute. discriminate.
  - rewrite E. vm_compute. reflexivity.
Defined.

Section ReadBound.

Context {U : Type} `{UDPAPI U}.

Hypothesis Hbounded : read_bounded U.

Lemma ntpExchange_readLoop_bounded (totalRead : Z) (buffer : list Z) (u : U) :
  0 <= totalRead <= sizeof_NTPPacket ->
  Z.of_nat (length buffer) = sizeof_NTPPacket ->
  fst (fst (ntpExchange_readLoop totalRead buffer u)) <= sizeof_NTPPacket
  /\ Z.of_nat (length (snd (fst (ntpExchange_readLoop totalRead buffer u))))
     = sizeof_NTPPacket.
Proof.
  funelim (ntpExchange_readLoop totalRead buffer u); intros Hle Hlen;
    cbn [fst snd]; try (split; [lia | exact Hlen]).
  match goal with
  | E : udp_read ?len ?v = (bytesRead, _, _) |- _ =>
      assert (Hr := Hbounded len v); rewrite E in Hr; cbn [fst snd] in Hr
  end.
  match goal with
  | IH : _ -> _ -> fst (fst (ntpExchange_readLoop _ _ _)) <= _ /\ _ |- _ =>
      apply IH
  end.
  - lia.
  - destruct (store_at_length buffer totalRead data) as [_ Hkeep].
    rewrite Hkeep; [exact Hlen | lia].
Qed.

(** X16. With a transport whose [read] never returns nor stores more
    than it was asked for, the count of bytes read stays between 0 and
    48 and no byte is stored outside the 48 bytes of the response; the
    exchange succeeds only with exactly 48 bytes read. *)
Theorem readLoop_stays_in_buffer (host : Platform) (tx_s : Z)
    (c : TinyNTPClient) (packetSize : Z) (w : World U) :
  let r :=
    ntpExchange_readLoop 0 (repeat 0 (Z.to_nat sizeof_NTPPacket))
                         (udp (snd (millis w))) in
  0 <= fst (fst r) <= sizeof_NTPPacket
  /\ Z.of_nat (length (snd (fst r))) = sizeof_NTPPacket
  /\ (fst (fst (ntpExchange_read host tx_s c packetSize w)) = true ->
      fst (fst r) = sizeof_NTPPacket).
Proof.
  cbv zeta.
  pose proof (ntpExchange_readLoop_count 0
                (repeat 0 (Z.to_nat sizeof_NTPPacket)) (udp (snd (millis w))))
    as Hlo.
  destruct (ntpExchange_readLoop_bounded 0
              (repeat 0 (Z.to_nat sizeof_NTPPacket)) (udp (snd (millis w))))
    as [H48 Hl].
  { unfold sizeof_NTPPacket. lia. }
  { reflexivity. }
  split; [split; [exact Hlo | exact H48] |].
  split; [exact Hl |].
  rewrite ntpExchange_read_result. intros Hok.
  apply andb_prop in Hok. destruct Hok as [_ Hok].
  apply Z.leb_le in Hok. lia.
Qed.

End ReadBound.

Lemma mock_read_bounded : read_bounded MockUDP.
Proof.
  intros len u Hlen. cbn [udp_read MockUDP_API]. unfold mock_read.
  destruct (mock_current u) as [| b rest]; cbn [fst snd length]; [lia |].
  rewrite length_firstn. lia.
Qed.

Lemma readLoop_stays_in_buffer_witness :
  let r := ntpExchange_readLoop 0 (repeat 0 (Z.to_nat sizeof_NTPPacket))
             (mkMock 0 [] (repeat 255 40) 7 []) in
  fst (fst r) = 40 /\ Z.of_nat (length (snd (fst r))) = sizeof_NTPPacket.
Proof.
  cbv zeta.
  destruct (readLoop_stays_in_buffer mock_read_bounded esp32 0 default_client
              48 (running_world 10 (mkMock 0 [] (repeat 255 40) 7 [])))
    as (_ & Hl & _).
  split; [vm_compute; reflexivity | exact Hl].
Defined.

(** Without that bound the loop writes past the response: a [read] that
    delivers 100 bytes when asked for 48 leaves a count of 100 and 100
    bytes written from the start of the buffer. *)
Example overlong_read_overruns :
  let r := ntpExchange_readLoop 0 (repeat 0 (Z.to_nat sizeof_NTPPacket))
             (mkGreedy (repeat 255 100)) in
  fst (fst r) = 100 /\ length (snd (fst r)) = 100%nat.
Proof. vm_compute. split; reflexivity. Qed.

(** ** One request per exchange *)

Lemma mock_parsePacket_sent (u : MockUDP) :
  mock_sent (snd (mock_parsePacket u)) = mock_sent u.
Proof.
  unfold mock_parsePacket.
  destruct (mock_delay u); [| reflexivity].
  destruct (mock_inbox u); reflexivity.
Qed.

Lemma mock_read_sent (len : Z) (u : MockUDP) :
  mock_sent (snd (mock_read len u)) = mock_sent u.
Proof. unfold mock_read. destruct (mock_current u); reflexivity. Qed.

Lemma ntpExchange_wait_sent (fuel : nat) (timeout_ms : Z) :
  forall (w : World MockUDP) r w',
    ntpExchange_wait fuel timeout_ms w = Some (r, w') ->
    mock_sent (udp w') = mock_sent (udp w).
Proof.
  induction fuel as [| fuel IH]; intros w r w' E; cbn [ntpExchange_wait] in E;
    [discriminate |].
  pose proof (mock_parsePacket_sent (udp w)) as Hs.
  change (udp_parsePacket (udp w)) with (mock_parsePacket (udp w)) in E.
  destruct (mock_parsePacket (udp w)) as [packetSize u1]. cbn [snd] in Hs.
  destruct (packetSize =? 0).
  - unfold millis, set_udp in E. cbn [clock clock_reads udp serial] in E.
    match type of E with
    | (if ?b then _ else _) = _ => destruct b
    end.
    + injection E as _ <-. exact Hs.
    + apply IH in E. cbn [udp] in E. congruence.
  - injection E as _ <-. exact Hs.
Qed.

Lemma ntpExchange_readLoop_sent (totalRead : Z) (buffer : list Z)
    (u : MockUDP) :
  mock_sent (snd (ntpExchange_readLoop totalRead buffer u)) = mock_sent u.
Proof.
  funelim (ntpExchange_readLoop totalRead buffer u); cbn [snd];
    try reflexivity.
  - match goal with
    | IH : mock_sent (snd (ntpExchange_readLoop _ _ _)) = _ |- _ => rewrite IH
    end.
    match goal with
    | E : _ = (bytesRead, data, u2) |- _ =>
        pose proof (mock_read_sent (sizeof_NTPPacket - totalRead) u) as Hs;
        change (mock_read (sizeof_NTPPacket - totalRead) u
                = (bytesRead, data, u2)) in E;
        rewrite E in Hs; exact Hs
    end.
  - match goal with
    | E : _ = (bytesRead, data, u2) |- _ =>
        pose proof (mock_read_sent (sizeof_NTPPacket - totalRead) u) as Hs;
        change (mock_read (sizeof_NTPPacket - totalRead) u
                = (bytesRead, data, u2)) in E;
        rewrite E in Hs; exact Hs
    end.
Qed.

Lemma ntpExchange_read_sent (host : Platform) (tx_s : Z) (c : TinyNTPClient)
    (packetSize : Z) (w : World MockUDP) :
  mock_sent (udp (snd (ntpExchange_read host tx_s c packetSize w)))
  = mock_sent (udp w).
Proof.
  unfold ntpExchange_read, millis. cbn [fst snd udp].
  destruct (packetSize <? sizeof_NTPPacket).
  - pose proof (mock_read_sent packetSize (udp w)) as Hs.
    change (udp_read packetSize (udp w)) with (mock_read packetSize (udp w)).
    destruct (mock_read packetSize (udp w)) as [[r d] u1]. exact Hs.
  - pose proof (ntpExchange_readLoop_sent 0
                  (repeat 0 (Z.to_nat sizeof_NTPPacket)) (udp w)) as Hs.
    destruct (ntpExchange_readLoop _ _ _) as [[totalRead buffer'] u1].
    cbn [snd] in Hs.
    destruct (totalRead <? sizeof_NTPPacket); [exact Hs |].
    unfold ntpExchange_update.
    destruct (negb (tx_s =? 0)); [| exact Hs].
    pose proof (getTimeSec_frame c
                  (set_udp
                     (mkWorld (clock w) (S (clock_reads w)) (udp w) (serial w))
                     u1)) as (Fu & _).
    destruct (getTimeSec c _) as [t3_unix w1]. cbn [snd] in *.
    rewrite Fu. exact Hs.
Qed.

Lemma ntpExchange_sent (host : Platform) (fuel : nat) (tx_s : Z)
    (c : TinyNTPClient) (w : World MockUDP) ok c' w' :
  ntpExchange host fuel tx_s c w = Some (ok, c', w') ->
  mock_sent (udp w')
  = mock_sent (udp w) ++ [packet_bytes host (request_packet host tx_s)].
Proof.
  rewrite ntpExchange_unfold.
  destruct (ntpExchange_wait _ _ _) as [[[packetSize |] w3] |] eqn:Ew;
    [| | discriminate]; apply ntpExchange_wait_sent in Ew.
  - intros E. injection E as E.
    pose proof (ntpExchange_read_sent host tx_s c packetSize w3) as Hs.
    rewrite E in Hs. cbn [snd] in Hs. rewrite Hs, Ew. reflexivity.
  - intros E. injection E as _ _ <-. rewrite Ew. reflexivity.
Qed.

(** X17. No retransmission.  On the scripted transport, which records
    what is written to it, an exchange that returns has written exactly
    one packet, the request built from its transmit seconds, whether it
    succeeded, timed out or read a bad reply; [update] on a client with
    an anchor writes one request, and on a client without one it writes
    the request with transmit seconds 0 and at most one more. *)
Theorem one_request_per_exchange (host : Platform) (fuel : nat)
    (c : TinyNTPClient) (w : World MockUDP) :
  (forall tx_s ok c' w',
      ntpExchange host fuel tx_s c w = Some (ok, c', w') ->
      mock_sent (udp w')
      = mock_sent (udp w) ++ [packet_bytes host (request_packet host tx_s)])
  /\ (forall ok c' w',
        update host fuel c w = Some (ok, c', w') ->
        if operator_bool c
        then mock_sent (udp w')
             = mock_sent (udp w)
               ++ [packet_bytes host
                     (request_packet host
                        (u32 (fst (getTimeSec c w) + NTP_EPOCH_DELTA)))]
        else exists more,
            mock_sent (udp w')
            = mock_sent (udp w)
              ++ packet_bytes host (request_packet host 0) :: more
            /\ (length more <= 1)%nat).
Proof.
  split; [intros tx_s ok c' w'; apply ntpExchange_sent |].
  intros ok c' w'. unfold update, operator_bool, updateWithoutRTC.
  destruct (_lastUpdateMillis c =? 0); cbn [negb].
  - destruct (ntpExchange host fuel 0 c w) as [[[[|] c1] w1] |] eqn:E1;
      [| | discriminate]; apply ntpExchange_sent in E1.
    + rewrite updateWithRTC_unfold. intros E2.
      apply ntpExchange_sent in E2.
      pose proof (getTimeSec_frame c1 w1) as (Fu & _).
      rewrite Fu, E1, <- app_assoc in E2.
      eexists. split; [exact E2 | cbn [length]; lia].
    + intros E2. injection E2 as _ _ <-.
      exists []. split; [exact E1 | cbn [length]; lia].
  - rewrite updateWithRTC_unfold. intros E2.
    apply ntpExchange_sent in E2.
    pose proof (getTimeSec_frame c w) as (Fu & _).
    rewrite Fu in E2. exact E2.
Qed.

Lemma one_request_per_exchange_witness :
  match ntpExchange esp32 100 0 impatient_client (running_world 100 silent) with
  | Some (false, _, w') =>
      mock_sent (udp w') = [[0xDB] ++ repeat 0 47]
  | _ => False
  end.
Proof.
  destruct (ntpExchange esp32 100 0 impatient_client
                        (running_world 100 silent))
    as [[[[|] c'] w'] |] eqn:E.
  - wrong_run E.
  - destruct (one_request_per_exchange esp32 100 impatient_client
                (running_world 100 silent)) as (Hx & _).
    rewrite (Hx _ _ _ _ E). vm_compute. reflexivity.
  - wrong_run E.
Defined.

(** ** The anchor an exchange installs *)

Section Anchor.

Variable host : Platform.
Context {U : Type} `{UDPAPI U}.

(** The time estimate depends on the counter alone, not on the state of
    the UDP object. *)
Lemma getTimeSec_set_udp (c : TinyNTPClient) (w : World U) (u : U) :
  fst (getTimeSec c (set_udp w u)) = fst (getTimeSec c w).
Proof.
  unfold getTimeSec, getTimeMs.
  destruct (_lastUpdateMillis c =? 0); reflexivity.
Qed.

(** What a successful exchange stores, from the bytes in the response
    buffer: the transmit seconds of the reply as Unix time, corrected by
    the offset of line 282 unless the request carried transmit seconds 0,
    together with the counter read when the reply was reported. *)
Lemma ntpExchange_read_anchor (tx_s : Z) (c : TinyNTPClient)
    (packetSize : Z) (w : World U) :
  let w1 := snd (millis w) in
  let reply :=
    ntpExchange_readLoop 0 (repeat 0 (Z.to_nat sizeof_NTPPacket)) (udp w1) in
  let buffer := snd (fst reply) in
  let T1 := be_value (word_at buffer 24) in
  let T2 := be_value (word_at buffer 32) in
  let T3 := be_value (word_at buffer 40) in
  let T4 := u32 (fst (getTimeSec c w1) + NTP_EPOCH_DELTA) in
  let ntpTime :=
    if tx_s =? 0 then u32 (T3 - NTP_EPOCH_DELTA)
    else u32 (T3 - NTP_EPOCH_DELTA + ntp_offset host T1 T2 T3 T4) in
  fst (fst (ntpExchange_read host tx_s c packetSize w)) = true ->
  snd (fst (ntpExchange_read host tx_s c packetSize w))
  = set_anchor c ntpTime (fst (millis w)).
Proof.
  cbv zeta. unfold ntpExchange_read, millis. cbn [fst snd udp].
  pose proof (ntpExchange_readLoop_buffer 0
                (repeat 0 (Z.to_nat sizeof_NTPPacket)) (udp w)
                (zero_buffer_bytes _)) as [Hbytes _].
  destruct (ntpExchange_readLoop 0 (repeat 0 (Z.to_nat sizeof_NTPPacket))
              (udp w)) as [[totalRead buffer'] u1].
  cbn [fst snd] in *.
  destruct (response_field host buffer' 24 Hbytes) as [E1 _].
  destruct (response_field host buffer' 32 Hbytes) as [E2 _].
  destruct (response_field host buffer' 40 Hbytes) as [E3 _].
  destruct (packetSize <? sizeof_NTPPacket).
  - destruct (udp_read packetSize (udp w)) as [[r d] u2].
    cbn [fst snd]. discriminate.
  - destruct (totalRead <? sizeof_NTPPacket); [cbn [fst snd]; discriminate |].
    intros _. unfold ntpExchange_update.
    unfold packet_of_bytes. cbn [origTm_s rxTm_s txTm_s].
    rewrite E1, E2, E3.
    destruct (tx_s =? 0); cbn [negb]; [reflexivity |].
    pose proof (getTimeSec_set_udp c
                  (mkWorld (clock w) (S (clock_reads w)) (udp w) (serial w))
                  u1) as Et.
    destruct (getTimeSec c (set_udp _ u1)) as [t3_unix w3].
    cbn [fst snd] in *. rewrite Et. reflexivity.
Qed.

(** A successful exchange leaves the UDP object as the read loop left
    it. *)
Lemma ntpExchange_read_udp (tx_s : Z) (c : TinyNTPClient)
    (packetSize : Z) (w : World U) :
  fst (fst (ntpExchange_read host tx_s c packetSize w)) = true ->
  udp (snd (ntpExchange_read host tx_s c packetSize w))
  = snd (ntpExchange_readLoop 0 (repeat 0 (Z.to_nat sizeof_NTPPacket))
                              (udp (snd (millis w)))).
Proof.
  unfold ntpExchange_read, millis. cbn [fst snd udp].
  destruct (ntpExchange_readLoop 0 (repeat 0 (Z.to_nat sizeof_NTPPacket))
              (udp w)) as [[totalRead buffer'] u1].
  destruct (packetSize <? sizeof_NTPPacket).
  - destruct (udp_read packetSize (udp w)) as [[r d] u2].
    cbn [fst snd]. discriminate.
  - destruct (totalRead <? sizeof_NTPPacket); [cbn [fst snd]; discriminate |].
    intros _. unfold ntpExchange_update.
    destruct (negb (tx_s =? 0)); [| reflexivity].
    pose proof (getTimeSec_frame c
                  (set_udp
                     (mkWorld (clock w) (S (clock_reads w)) (udp w) (serial w))
                     u1)) as (Fu & _).
    destruct (getTimeSec c (set_udp _ u1)) as [t3_unix w3].
    cbn [fst snd] in *. exact Fu.
Qed.

(** The two failures after the wait loop, with what they leave behind. *)
Lemma ntpExchange_read_too_short (tx_s : Z) (c : TinyNTPClient)
    (packetSize : Z) (w : World U) :
  packetSize < sizeof_NTPPacket ->
  fst (ntpExchange_read host tx_s c packetSize w) = (false, c)
  /\ serial (snd (ntpExchange_read host tx_s c packetSize w))
     = serial w ++ [LogTooShort packetSize].
Proof.
  intros Hps. apply Z.ltb_lt in Hps.
  unfold ntpExchange_read, millis. rewrite Hps.
  destruct (udp_read packetSize _) as [[r d] u1]. split; reflexivity.
Qed.

Lemma ntpExchange_read_incomplete (tx_s : Z) (c : TinyNTPClient)
    (packetSize : Z) (w : World U) :
  let totalRead :=
    fst (fst (ntpExchange_readLoop 0 (repeat 0 (Z.to_nat sizeof_NTPPacket))
                                   (udp (snd (millis w))))) in
  sizeof_NTPPacket <= packetSize ->
  totalRead < sizeof_NTPPacket ->
  fst (ntpExchange_read host tx_s c packetSize w) = (false, c)
  /\ serial (snd (ntpExchange_read host tx_s c packetSize w))
     = serial w ++ [LogIncomplete totalRead].
Proof.
  cbv zeta. intros Hps Htr.
  apply Z.ltb_ge in Hps. apply Z.ltb_lt in Htr.
  unfold ntpExchange_read, millis in *. cbn [fst snd udp] in *. rewrite Hps.
  destruct (ntpExchange_readLoop 0 (repeat 0 (Z.to_nat sizeof_NTPPacket))
              (udp w)) as [[totalRead buffer'] u1].
  cbn [fst snd] in *. rewrite Htr. split; reflexivity.
Qed.

(** C5. An exchange that fails returns the client unchanged, so the
    anchor ([_lastNtpTime], [_lastUpdateMillis]) is what it was; the
    failure is the time-out, a declared size below 48 or an incomplete
    read, as the one line added to the serial output tells.  (A transport
    whose send fails shows up as one of these: the results of the send
    calls are not looked at.)  An exchange that succeeds has been reported
    a datagram of at least 48 bytes and assigns both anchor fields and
    nothing else: [_lastNtpTime] becomes the transmit seconds of the reply
    as Unix time (bytes 40-43 of the response, big-endian, minus
    2208988800), corrected by the offset of line 282 when the request
    carried non-zero transmit seconds, and [_lastUpdateMillis] becomes the
    counter read when the reply was reported. *)
Theorem ntpExchange_anchor_atomic (fuel : nat) (tx_s : Z)
    (c : TinyNTPClient) (w : World U) ok c' w' :
  ntpExchange host fuel tx_s c w = Some (ok, c', w') ->
  if ok then
    exists packetSize w3,
      ntpExchange_wait fuel (deadline host tx_s c w) (wait_start host tx_s c w)
      = Some (Some packetSize, w3)
      /\ sizeof_NTPPacket <= packetSize
      /\ let w4 := snd (millis w3) in
         let buffer :=
           snd (fst (ntpExchange_readLoop
                       0 (repeat 0 (Z.to_nat sizeof_NTPPacket)) (udp w4))) in
         let T1 := be_value (word_at buffer 24) in
         let T2 := be_value (word_at buffer 32) in
         let T3 := be_value (word_at buffer 40) in
         let T4 := u32 (fst (getTimeSec c w4) + NTP_EPOCH_DELTA) in
         let ntpTime :=
           if tx_s =? 0 then u32 (T3 - NTP_EPOCH_DELTA)
           else u32 (T3 - NTP_EPOCH_DELTA + ntp_offset host T1 T2 T3 T4) in
         c' = set_anchor c ntpTime (fst (millis w3))
         /\ _lastNtpTime c' = ntpTime
         /\ _lastUpdateMillis c' = fst (millis w3)
  else
    c' = c
    /\ _lastNtpTime c' = _lastNtpTime c
    /\ _lastUpdateMillis c' = _lastUpdateMillis c
    /\ (serial w' = serial w ++ [LogTimedOut]
        \/ (exists packetSize, packetSize < sizeof_NTPPacket
            /\ serial w' = serial w ++ [LogTooShort packetSize])
        \/ (exists totalRead, totalRead < sizeof_NTPPacket
            /\ serial w' = serial w ++ [LogIncomplete totalRead])).
Proof.
  rewrite ntpExchange_unfold.
  destruct (ntpExchange_wait _ _ _) as [[[packetSize |] w3] |] eqn:Ew;
    [| | discriminate].
  - apply ntpExchange_wait_serial in Ew. destruct Ew as [Es _].
    rewrite wait_start_serial in Es.
    intros E. inversion E as [E1].
    pose proof (ntpExchange_read_result host tx_s c packetSize w3) as Hres.
    pose proof (ntpExchange_read_anchor tx_s c packetSize w3) as Hanchor.
    cbv zeta in Hres, Hanchor. rewrite E1 in Hres, Hanchor.
    cbn [fst snd] in Hres, Hanchor.
    apply ntpExchange_read_inv in E1.
    destruct E1 as [(-> & -> & Hlog) | (-> & _ & _)].
    + repeat split. right. rewrite <- Es.
      destruct Hlog as [(Hps & Hs) | (totalRead & Htr & Hs)].
      * left. eauto.
      * right. eauto.
    + exists packetSize, w3. split; [reflexivity |].
      symmetry in Hres. apply andb_prop in Hres. destruct Hres as [Hps _].
      apply Z.leb_le in Hps. split; [exact Hps |].
      cbv zeta. rewrite (Hanchor eq_refl). repeat split.
  - apply ntpExchange_wait_serial in Ew. rewrite wait_start_serial in Ew.
    intros E. inversion E; subst. repeat split. left. exact Ew.
Qed.

End Anchor.

(** ** What is accepted as a reply *)

(** The scripted transport with fewer bytes than are missing: the loop
    reads them all and stops when there are no more. *)
Lemma mock_drains :
  forall (totalRead : Z) (buffer : list Z) (u : MockUDP),
    0 <= totalRead ->
    totalRead + Z.of_nat (length (mock_current u)) < sizeof_NTPPacket ->
    1 <= mock_chunk u ->
    fst (fst (ntpExchange_readLoop totalRead buffer u))
    = totalRead + Z.of_nat (length (mock_current u)).
Proof.
  intros totalRead buffer u.
  funelim (ntpExchange_readLoop totalRead buffer u);
    intros H0 Hshort Hchunk; cbn [fst snd]; unfold sizeof_NTPPacket in *.
  - lia.
  - lia.
  - match goal with
    | E : _ = (bytesRead, data, u2) |- _ =>
        change (mock_read (48 - totalRead) u = (bytesRead, data, u2)) in E;
        unfold mock_read in E;
        destruct (mock_current u) as [| b rest] eqn:Ecur;
        [cbn [length Z.of_nat] in *; lia |];
        rewrite <- Ecur in E;
        pose proof (f_equal (fun r => fst (fst r)) E) as Eb;
        pose proof (f_equal snd E) as Eu;
        cbn [fst snd] in Eb, Eu; clear E
    end.
    assert (Hb : bytesRead
                 = Z.of_nat (Nat.min
                               (Z.to_nat (Z.min (48 - totalRead)
                                                (mock_chunk u)))
                               (length (b :: rest))))
      by (rewrite <- Eb, length_firstn, Ecur; reflexivity).
    assert (Hc : length (mock_current u2)
                 = (length (b :: rest)
                    - Z.to_nat (Z.min (48 - totalRead) (mock_chunk u)))%nat)
      by (rewrite <- Eu; cbn [mock_current]; rewrite length_skipn, Ecur;
          reflexivity).
    assert (Hch : mock_chunk u2 = mock_chunk u) by (rewrite <- Eu; reflexivity).
    match goal with
    | IH : _ -> _ -> _ -> fst (fst (ntpExchange_readLoop _ _ _)) = _ |- _ =>
        rewrite IH
    end.
    + rewrite Hc, Hb. lia.
    + lia.
    + rewrite Hc, Hb. lia.
    + rewrite Hch. exact Hchunk.
  - exfalso.
    match goal with
    | E : _ = (bytesRead, data, u2) |- _ =>
        change (mock_read (48 - totalRead) u = (bytesRead, data, u2)) in E;
        unfold mock_read in E;
        destruct (mock_current u) as [| b rest] eqn:Ecur;
        [cbn [length Z.of_nat] in *; lia |];
        rewrite <- Ecur in E;
        pose proof (f_equal (fun r => fst (fst r)) E) as Eb;
        cbn [fst snd] in Eb; clear E
    end.
    rewrite length_firstn, Ecur in Eb. cbn [length] in Eb. lia.
Qed.

(** C8. After the wait loop, the exchange succeeds exactly when the
    declared size is at least 48 and the read loop has collected 48
    bytes.  A declared size below 48 fails and leaves the client as it
    was, and so does a read loop that ends with fewer than 48 bytes; the
    serial output tells which.  On the scripted transport, in reads of
    whatever size: a datagram of fewer than 48 bytes is read to its end
    and refused with the number of bytes it had; a datagram of 48 bytes
    or more is accepted whatever its bytes are, its first 48 bytes are
    consumed, and the anchor is decoded from them: the seconds at bytes
    24-27, 32-35 and 40-43, big-endian, go into the stored time with no
    check of flags, stratum or any other field. *)
Theorem ntpExchange_read_accepts :
  (forall (host : Platform) (U : Type) (H : UDPAPI U) (tx_s : Z)
          (c : TinyNTPClient) (packetSize : Z) (w : World U),
      let totalRead :=
        fst (fst (ntpExchange_readLoop
                    0 (repeat 0 (Z.to_nat sizeof_NTPPacket))
                    (udp (snd (millis w))))) in
      let r := ntpExchange_read host tx_s c packetSize w in
      fst (fst r)
      = (sizeof_NTPPacket <=? packetSize) && (sizeof_NTPPacket <=? totalRead)
      /\ (packetSize < sizeof_NTPPacket ->
          fst r = (false, c)
          /\ serial (snd r) = serial w ++ [LogTooShort packetSize])
      /\ (sizeof_NTPPacket <= packetSize -> totalRead < sizeof_NTPPacket ->
          fst r = (false, c)
          /\ serial (snd r) = serial w ++ [LogIncomplete totalRead]))
  /\ (forall (host : Platform) (tx_s : Z) (c : TinyNTPClient)
             (packetSize : Z) (w : World MockUDP),
         let r := ntpExchange_read host tx_s c packetSize w in
         sizeof_NTPPacket <= packetSize ->
         (length (mock_current (udp w)) < 48)%nat ->
         1 <= mock_chunk (udp w) ->
         fst r = (false, c)
         /\ serial (snd r)
            = serial w
              ++ [LogIncomplete (Z.of_nat (length (mock_current (udp w))))])
  /\ (forall (host : Platform) (tx_s : Z) (c : TinyNTPClient)
             (packetSize : Z) (w : World MockUDP),
         let r := ntpExchange_read host tx_s c packetSize w in
         let response :=
           map (fun b => b mod 256) (firstn 48 (mock_current (udp w))) in
         let T1 := be_value (word_at response 24) in
         let T2 := be_value (word_at response 32) in
         let T3 := be_value (word_at response 40) in
         let T4 :=
           u32 (fst (getTimeSec c (snd (millis w))) + NTP_EPOCH_DELTA) in
         let ntpTime :=
           if tx_s =? 0 then u32 (T3 - NTP_EPOCH_DELTA)
           else u32 (T3 - NTP_EPOCH_DELTA + ntp_offset host T1 T2 T3 T4) in
         sizeof_NTPPacket <= packetSize ->
         (48 <= length (mock_current (udp w)))%nat ->
         1 <= mock_chunk (udp w) ->
         fst r = (true, set_anchor c ntpTime (fst (millis w)))
         /\ mock_current (udp (snd r)) = skipn 48 (mock_current (udp w))
         /\ serial (snd r) = serial w).
Proof.
  split; [| split].
  - intros host U H tx_s c packetSize w. cbv zeta.
    split; [apply ntpExchange_read_result |].
    split; [apply ntpExchange_read_too_short |].
    apply ntpExchange_read_incomplete.
  - intros host tx_s c packetSize w. cbv zeta. intros Hps Hlen Hchunk.
    assert (Hd : fst (fst (ntpExchange_readLoop
                             0 (repeat 0 (Z.to_nat sizeof_NTPPacket)) (udp w)))
                 = Z.of_nat (length (mock_current (udp w)))).
    { rewrite mock_drains; [reflexivity | lia | | exact Hchunk].
      unfold sizeof_NTPPacket. lia. }
    pose proof (ntpExchange_read_incomplete host tx_s c packetSize w Hps)
      as Hi.
    cbv zeta in Hi. change (udp (snd (millis w))) with (udp w) in Hi.
    rewrite Hd in Hi. apply Hi. unfold sizeof_NTPPacket. lia.
  - intros host tx_s c packetSize w. cbv zeta. intros Hps Hlen Hchunk.
    destruct (mock_reassembles 0 (repeat 0 (Z.to_nat sizeof_NTPPacket))
                (udp w) O (mock_current (udp w))) as (R1 & R2 & R3);
      try reflexivity; try assumption; try lia.
    assert (Hok : fst (fst (ntpExchange_read host tx_s c packetSize w))
                  = true).
    { rewrite ntpExchange_read_result.
      change (udp (snd (millis w))) with (udp w). rewrite R1.
      apply andb_true_intro. split; apply Z.leb_le;
        [exact Hps | unfold sizeof_NTPPacket; lia]. }
    pose proof (ntpExchange_read_anchor host tx_s c packetSize w Hok) as Ha.
    pose proof (ntpExchange_read_udp host tx_s c packetSize w Hok) as Hu.
    change (udp (snd (millis w))) with (udp w) in Ha, Hu.
    rewrite R2 in Ha. rewrite R3 in Hu.
    destruct (ntpExchange_read host tx_s c packetSize w)
      as [[ok c1] w1] eqn:E.
    cbn [fst snd] in Hok, Ha, Hu |- *. subst ok c1.
    apply ntpExchange_read_inv in E.
    destruct E as [(Hf & _) | (_ & Hs & _)]; [discriminate Hf |].
    split; [reflexivity | split; [rewrite Hu; reflexivity | exact Hs]].
Qed.

Lemma ntpExchange_anchor_atomic_witness :
  match ntpExchange esp32 10 1000 synced_client
          (running_world 10 (incoming [reply_bytes 1000 1005 1006])) with
  | Some (true, c', _) =>
      _lastNtpTime c' = u32 (1006 - NTP_EPOCH_DELTA + 5)
      /\ _lastUpdateMillis c' = 11
      /\ _lastNtpTime c' <> _lastNtpTime synced_client
      /\ _lastUpdateMillis c' <> _lastUpdateMillis synced_client
  | _ => False
  end
  /\ match ntpExchange esp32 100 0 impatient_client
             (running_world 100 silent) with
     | Some (false, c', _) =>
         c' = impatient_client
         /\ _lastNtpTime c' = 0 /\ _lastUpdateMillis c' = 0
     | _ => False
     end.
Proof.
  split.
  - destruct (ntpExchange esp32 10 1000 synced_client
                (running_world 10 (incoming [reply_bytes 1000 1005 1006])))
      as [[[[|] c'] w'] |] eqn:E.
    + destruct (ntpExchange_anchor_atomic _ _ _ _ _ _ _ _ E)
        as (packetSize & w3 & Ew & _ & Hanchor).
      cbv zeta in Hanchor. destruct Hanchor as (_ & Hn & Hm).
      vm_compute in Ew. injection Ew as <- <-.
      rewrite Hn, Hm. vm_compute.
      repeat split; discriminate.
    + wrong_run E.
    + wrong_run E.
  - destruct (ntpExchange esp32 100 0 impatient_client
                (running_world 100 silent))
      as [[[[|] c'] w'] |] eqn:E.
    + wrong_run E.
    + destruct (ntpExchange_anchor_atomic _ _ _ _ _ _ _ _ E)
        as (A & B & C & _).
      split; [exact A | split; [exact B | exact C]].
    + wrong_run E.
Defined.

Lemma ntpExchange_read_accepts_witness :
  fst (ntpExchange_read esp32 0 default_client 47
         (running_world 10 (arrived (repeat 255 47))))
  = (false, default_client)
  /\ (fst (ntpExchange_read esp32 0 default_client 48
             (running_world 10 (mkMock 0 [] (repeat 255 40) 7 [])))
      = (false, default_client)
      /\ serial (snd (ntpExchange_read esp32 0 default_client 48
                        (running_world 10 (mkMock 0 [] (repeat 255 40) 7 []))))
         = [LogIncomplete 40])
  /\ fst (ntpExchange_read esp32 0 default_client 48
            (running_world 10 (mkMock 0 [] (repeat 255 48) 7 [])))
     = (true,
        set_anchor default_client (u32 (2 ^ 32 - 1 - NTP_EPOCH_DELTA)) 10).
Proof.
  destruct ntpExchange_read_accepts as (Hgen & Hshort & Hfull).
  split; [| split].
  - pose proof (Hgen esp32 MockUDP _ 0 default_client 47
                  (running_world 10 (arrived (repeat 255 47)))) as G.
    cbv zeta in G. destruct G as (_ & Hts & _).
    apply Hts. reflexivity.
  - pose proof (Hshort esp32 0 default_client 48
                  (running_world 10 (mkMock 0 [] (repeat 255 40) 7 []))) as G.
    cbv zeta in G. apply G.
    + vm_compute. discriminate.
    + vm_compute. lia.
    + vm_compute. discriminate.
  - pose proof (Hfull esp32 0 default_client 48
                  (running_world 10 (mkMock 0 [] (repeat 255 48) 7 []))) as G.
    cbv zeta in G. destruct G as (Hr & _).
    + vm_compute. discriminate.
    + vm_compute. lia.
    + vm_compute. discriminate.
    + rewrite Hr. vm_compute. reflexivity.
Defined.

(** C1, where the code departs from it.  A client with an anchor
    re-synchronizes on a host with a 64-bit [long] (the build of
    [examples/ntp-desktop]); the reply carries T1 = T2 = T3 = 1001 and the
    client's own second ticks over during the exchange, so T4 = 1002.
    The difference T3 - T4 is taken in [uint32_t] and stays a large
    positive number when converted to [long]: the offset is 2147483647
    and the stored time is [1001 - 2208988800 + 2147483647], not
    [1001 - 2208988800 + ((1001 - 1001) + (1001 - 1002)) / 2] with
    either rounding of the quotient.  With a 32-bit [long] the same run
    stores the value of the formula. *)
Theorem offset_sign_lost_with_wide_long :
  match update desktop 10 synced_client
               (running_world 1002 (incoming [reply_bytes 1001 1001 1001])) with
  | Some (true, c', _) =>
      u32 (fst (getTimeSec synced_client
                  (mkWorld (running_clock 1002) 3 silent []))
           + NTP_EPOCH_DELTA) = 1002
      /\ ntp_offset desktop 1001 1001 1001 1002 = 2147483647
      /\ _lastNtpTime c' = u32 (1001 - NTP_EPOCH_DELTA + 2147483647)
      /\ _lastNtpTime c'
         <> u32 (1001 - NTP_EPOCH_DELTA
                 + Z.quot ((1001 - 1001) + (1001 - 1002)) 2)
      /\ _lastNtpTime c'
         <> u32 (1001 - NTP_EPOCH_DELTA + ((1001 - 1001) + (1001 - 1002)) / 2)
  | _ => False
  end
  /\ match update esp32 10 synced_client
              (running_world 1002 (incoming [reply_bytes 1001 1001 1001])) with
     | Some (true, c', _) =>
         _lastNtpTime c'
         = u32 (1001 - NTP_EPOCH_DELTA
                + Z.quot ((1001 - 1001) + (1001 - 1002)) 2)
     | _ => False
     end.
Proof. vm_compute. repeat split; discriminate. Qed.

(** C2, where the code departs from it: a first [update] whose second
    reply arrives just as the millisecond counter wraps to 0 succeeds and
    stores the time of the reply, and [getTimeMs] still returns 0, not
    the sum. *)
Lemma getTimeMs_zero_after_sync :
  match update esp32 10 default_client
               (running_world (2 ^ 32 - 4)
                  (incoming [server_reply; server_reply])) with
  | Some (true, c', w') =>
      _lastNtpTime c' = 1700000000
      /\ fst (getTimeMs c' w') = 0
      /\ fst (getTimeMs c' w')
         <> _lastNtpTime c' * 1000
            + ms_since_update (fst (millis w')) (_lastUpdateMillis c')
            + _timeOffsetSeconds c' * 1000
  | _ => False
  end.
Proof. vm_compute. repeat split; discriminate. Qed.

(** ** Unix seconds, NTP seconds and the wrap of 2036 *)

Section Era.

Variable host : Platform.
Context {U : Type} `{UDPAPI U}.

Lemma unix_ntp_unix (t : Z) :
  is_u32 t -> u32 (u32 (t + NTP_EPOCH_DELTA) - NTP_EPOCH_DELTA) = t.
Proof.
  intros Ht. unfold u32. rewrite Zminus_mod_idemp_l.
  replace (t + NTP_EPOCH_DELTA - NTP_EPOCH_DELTA) with t by lia.
  apply Z.mod_small. exact Ht.
Qed.

(** X18. The direct assignment of lines 288-297 recovers the Unix time
    from the NTP seconds for every 32-bit Unix time, across the wrap of
    the NTP seconds in 2036: if the reply's transmit seconds are
    [t + 2208988800] modulo 2^32 with [0 <= t < 2^32], the stored time
    is [t].  The request of [updateWithRTC] carries the inverse
    conversion of the client's own estimate. *)
Theorem bootstrap_unix_time (t3_millis t : Z) (response : NTPPacket)
    (c : TinyNTPClient) (w : World U) :
  is_u32 t ->
  l_ntohl host (txTm_s response) = u32 (t + NTP_EPOCH_DELTA) ->
  ntpExchange_update host 0 t3_millis response c w
  = (true, set_anchor c t t3_millis, w)
  /\ (forall fuel,
        updateWithRTC host fuel c w
        = ntpExchange host fuel (u32 (fst (getTimeSec c w) + NTP_EPOCH_DELTA))
                      c (snd (getTimeSec c w)))
  /\ u32 (u32 (t + NTP_EPOCH_DELTA) - NTP_EPOCH_DELTA) = t.
Proof.
  intros Ht E. unfold ntpExchange_update. cbn [Z.eqb negb].
  rewrite E, (unix_ntp_unix t Ht).
  split; [reflexivity |]. split; [| reflexivity].
  intros fuel. apply updateWithRTC_unfold.
Qed.

(** X19. Transmit seconds 0 mean "no time of my own" to [ntpExchange],
    also when they are a real time: a client with an anchor whose
    estimate is 2085978496 (the second in 2036 at which NTP seconds wrap
    to 0) sends transmit seconds 0, and its [update] is the
    direct-assignment exchange [updateWithoutRTC], which ignores the
    originate and receive fields of the reply. *)
Theorem update_at_era_boundary (fuel : nat) (c : TinyNTPClient)
    (w : World U) :
  operator_bool c = true ->
  fst (getTimeSec c w) = 2 ^ 32 - NTP_EPOCH_DELTA ->
  update host fuel c w = updateWithoutRTC host fuel c (snd (getTimeSec c w))
  /\ 2 ^ 32 - NTP_EPOCH_DELTA = 2085978496.
Proof.
  intros Hb Hs. split; [| reflexivity].
  unfold update, operator_bool in *.
  destruct (_lastUpdateMillis c =? 0); [discriminate |].
  rewrite updateWithRTC_unfold, Hs. reflexivity.
Qed.

End Era.

Lemma bootstrap_unix_time_witness :
  fst (ntpExchange_update esp32 0 77
         (packet_of_bytes esp32 (reply_bytes 0 0 1000)) default_client
         (running_world 100 silent))
  = (true, set_anchor default_client (1000 + 2 ^ 32 - NTP_EPOCH_DELTA) 77).
Proof.
  assert (Ht : is_u32 (1000 + 2 ^ 32 - NTP_EPOCH_DELTA))
    by (vm_compute; split; [discriminate | reflexivity]).
  destruct (bootstrap_unix_time esp32 77 (1000 + 2 ^ 32 - NTP_EPOCH_DELTA)
              (packet_of_bytes esp32 (reply_bytes 0 0 1000)) default_client
              (running_world 100 silent) Ht) as (E & _).
  - vm_compute. reflexivity.
  - rewrite E. reflexivity.
Defined.

Lemma update_at_era_boundary_witness :
  match update esp32 10
          (mkClient "pool.ntp.org"%string 123 0 2085978496 5 6000)
          (running_world 10 (incoming [reply_bytes 7 9 (NTP_EPOCH_DELTA + 1700000000)]))
  with
  | Some (true, c', _) => _lastNtpTime c' = 1700000000
  | _ => False
  end.
Proof.
  destruct (update_at_era_boundary esp32 10
              (mkClient "pool.ntp.org"%string 123 0 2085978496 5 6000)
              (running_world 10
                 (incoming [reply_bytes 7 9 (NTP_EPOCH_DELTA + 1700000000)])))
    as (E & _).
  - reflexivity.
  - vm_compute. reflexivity.
  - rewrite E. vm_compute. reflexivity.
Defined.
